(** * x25fs: the in-memory node tree, its file and directory operations,
      and the snapshot codec, embedded from the Go sources.

    Conventions of the embedding.
    - Go's fixed-width integers are [Z] with the wrap-around written out
      ([uint64], [int64]). The length of a slice is an [int] that is never
      negative, so a conversion of a length to [int64] or [uint64] keeps
      its value and is not written.
    - A Go byte slice is a view on a backing array: the bytes below its
      length ([live]) and the bytes between its length and its capacity
      ([spare]).
    - [time.Now()] is an argument of the operation that calls it.
    - A run-time panic (index out of range, nil dereference, the inode
      counter wrapping) is the outcome [Panic].
    - The reader/writer mutexes guard data races only; the sequential
      functions below leave them out, and [Dir.Rename] reports the lock
      events it performs. *)

From Stdlib Require Import ZArith Lia Ascii String.
From Stdlib.Strings Require Import Byte.
From stdpp Require Import gmap strings list fin_maps.

Local Open Scope Z_scope.

Set Warnings "-register-all".

(** ** Machine integers *)

Definition uint64 (z : Z) : Z := z mod 2 ^ 64.
Definition int64 (z : Z) : Z := (z + 2 ^ 63) mod 2 ^ 64 - 2 ^ 63.

Definition max_int : Z := 2 ^ 63 - 1.
Definition min_int : Z := - 2 ^ 63.

(** ** Outcomes of an operation *)

Inductive Errno : Set := EINVAL | EEXIST | EPERM | EACCES | ENOENT | EFBIG.

(** The error kinds of the specification, and the errno each one is
    surfaced as. *)
Inductive ErrorKind : Set :=
  InvalidName | AlreadyExists | PermissionDenied | NotFound | TooLarge.

Definition kind_of (e : Errno) : ErrorKind :=
  match e with
  | EINVAL => InvalidName
  | EEXIST => AlreadyExists
  | EPERM | EACCES => PermissionDenied
  | ENOENT => NotFound
  | EFBIG => TooLarge
  end.

Inductive Result (E A : Type) : Type :=
  | Ok (a : A)
  | Err (e : E)
  | Panic.
Arguments Ok {E A} a.
Arguments Err {E A} e.
Arguments Panic {E A}.

(** The outcome of a node operation: a value, an errno, or a panic. *)
Abbreviation Outcome := (Result Errno).

(** ** Byte slices *)

Module slice.

Record t : Type := mk { live : list byte; spare : list byte }.

Definition len (s : t) : Z := Z.of_nat (length (live s)).
Definition cap (s : t) : Z := Z.of_nat (length (live s) + length (spare s)).

(** [[]byte{}] *)
Definition empty : t := mk [] [].

(** [make([]byte, n, c)]: zeroed; panics unless [0 <= n <= c]. *)
Definition make (n c : Z) : option t :=
  if bool_decide (0 <= n <= c) then
    Some (mk (replicate (Z.to_nat n) x00) (replicate (Z.to_nat (c - n)) x00))
  else None.

(** [copy(dst, src)]: the first [min(len dst, len src)] bytes of [dst]
    are overwritten. *)
Definition copy (dst : t) (src : list byte) : t :=
  let k := Nat.min (length (live dst)) (length src) in
  mk (take k src ++ drop k (live dst)) (spare dst).

(** [copy(dst[off:], src)] seen from [dst], which shares the backing
    array; [off] is within [0, len dst]. *)
Definition copy_at (dst : t) (off : nat) (src : list byte) : t :=
  let k := Nat.min (length (live dst) - off) (length src) in
  mk (take off (live dst) ++ take k src ++ drop (off + k) (live dst))
     (spare dst).

(** [s[:n]]: legal up to the capacity; [None] is the panic. *)
Definition upto (s : t) (n : Z) : option t :=
  if bool_decide (0 <= n <= cap s) then
    let all := live s ++ spare s in
    Some (mk (take (Z.to_nat n) all) (drop (Z.to_nat n) all))
  else None.

(** [s[lo:hi]]: legal for [0 <= lo <= hi <= cap s]. *)
Definition sub (s : t) (lo hi : Z) : option t :=
  if bool_decide (0 <= lo <= hi /\ hi <= cap s) then
    let all := live s ++ spare s in
    Some (mk (take (Z.to_nat (hi - lo)) (drop (Z.to_nat lo) all))
             (drop (Z.to_nat hi) all))
  else None.

(** The backing array is dropped: what a decoder that allocates exactly
    the bytes it read hands back. *)
Definition clip (s : t) : t := mk (live s) [].

End slice.

(** ** Attributes and requests (package [bazil.org/fuse]) *)

Definition time_Time : Set := Z.

(** Modelled from the spec: [fuse.Attr] is declared in bazil.org/fuse, not
    in this repository; these are the fields the sources read or write,
    which are the attributes of section 3 of the specification. *)
Module Attr.
Record t : Set := mk {
  Inode : Z;  (* uint64 *)
  Size : Z;   (* uint64 *)
  Atime : time_Time;
  Mtime : time_Time;
  Ctime : time_Time;
  Mode : Z;   (* os.FileMode, uint32 *)
  Uid : Z;    (* uint32 *)
  Gid : Z     (* uint32 *)
}.

Definition with_Size (v : Z) (a : t) : t :=
  mk (Inode a) v (Atime a) (Mtime a) (Ctime a) (Mode a) (Uid a) (Gid a).
Definition with_Atime (v : time_Time) (a : t) : t :=
  mk (Inode a) (Size a) v (Mtime a) (Ctime a) (Mode a) (Uid a) (Gid a).
Definition with_Mtime (v : time_Time) (a : t) : t :=
  mk (Inode a) (Size a) (Atime a) v (Ctime a) (Mode a) (Uid a) (Gid a).
Definition with_Ctime (v : time_Time) (a : t) : t :=
  mk (Inode a) (Size a) (Atime a) (Mtime a) v (Mode a) (Uid a) (Gid a).
Definition with_Mode (v : Z) (a : t) : t :=
  mk (Inode a) (Size a) (Atime a) (Mtime a) (Ctime a) v (Uid a) (Gid a).
Definition with_Uid (v : Z) (a : t) : t :=
  mk (Inode a) (Size a) (Atime a) (Mtime a) (Ctime a) (Mode a) v (Gid a).
Definition with_Gid (v : Z) (a : t) : t :=
  mk (Inode a) (Size a) (Atime a) (Mtime a) (Ctime a) (Mode a) (Uid a) v.
End Attr.

Module Header.
Record t : Set := mk { Uid : Z; Gid : Z }.
End Header.

(** [fuse.SetattrValid] is a bit mask; its accessor methods test one bit
    each. *)
Module SetattrValid.
Definition t : Set := Z.
Definition Mode (v : t) : bool := Z.testbit v 0.
Definition Uid (v : t) : bool := Z.testbit v 1.
Definition Gid (v : t) : bool := Z.testbit v 2.
Definition Size (v : t) : bool := Z.testbit v 3.
Definition Atime (v : t) : bool := Z.testbit v 4.
Definition Mtime (v : t) : bool := Z.testbit v 5.
End SetattrValid.

Module SetattrRequest.
Record t : Set := mk {
  Valid : SetattrValid.t;
  Size : Z;   (* uint64 *)
  Atime : time_Time;
  Mtime : time_Time;
  Mode : Z;
  Uid : Z;
  Gid : Z
}.
End SetattrRequest.

Module SetattrResponse.
Record t : Set := mk { Attr : Attr.t }.
End SetattrResponse.

Module ReadRequest.
Record t : Set := mk { Offset : Z (* int64 *); Size : Z (* int *) }.
End ReadRequest.

Module ReadResponse.
Record t : Type := mk { Data : slice.t }.
End ReadResponse.

Module WriteRequest.
Record t : Set := mk { Offset : Z (* int64 *); Data : list byte }.
End WriteRequest.

Module WriteResponse.
Record t : Set := mk { Size : Z }.
End WriteResponse.

Module MkdirRequest.
Record t : Set := mk { Header : Header.t; Name : string; Mode : Z }.
End MkdirRequest.

Module RemoveRequest.
Record t : Set := mk { Header : Header.t; Name : string }.
End RemoveRequest.

Module CreateRequest.
Record t : Set := mk { Header : Header.t; Name : string; Mode : Z }.
End CreateRequest.

(** [fuse.DirentType]: the two values [ReadDirAll] uses. *)
Inductive DirentType : Set := DT_Dir | DT_File.

Module Dirent.
Record t : Set := mk { Inode : Z; Name : string; Type_ : DirentType }.
End Dirent.

Module RenameRequest.
Record t : Set := mk { Header : Header.t; OldName : string; NewName : string }.
End RenameRequest.

(** ** file.go *)

Definition MAX_FILE_SIZE : Z := 536870912.

Module File.

Record t : Type := mk { Attributes : Attr.t; Data : slice.t }.

Definition with_Attributes (a : Attr.t) (file : t) : t := mk a (Data file).
Definition with_Data (d : slice.t) (file : t) : t := mk (Attributes file) d.

(** The tail of [Setattr] once the buffer has its new length:
    [file.Attributes.Size = req.Size], [file.Attributes.Mtime = time.Now()],
    [res.Attr = file.Attributes]. *)
Definition Setattr_stamp (file : t) (req : SetattrRequest.t) (now : time_Time)
    : Outcome SetattrResponse.t * t :=
  let file :=
    with_Attributes
      (Attr.with_Mtime now
         (Attr.with_Size (SetattrRequest.Size req) (Attributes file))) file in
  (Ok (SetattrResponse.mk (Attributes file)), file).

Definition Setattr (file : t) (req : SetattrRequest.t) (now : time_Time)
    : Outcome SetattrResponse.t * t :=
  let valid := SetattrRequest.Valid req in
  let file :=
    if SetattrValid.Mode valid
    then with_Attributes (Attr.with_Mode (SetattrRequest.Mode req) (Attributes file)) file
    else file in
  let file :=
    if SetattrValid.Uid valid
    then with_Attributes (Attr.with_Uid (SetattrRequest.Uid req) (Attributes file)) file
    else file in
  let file :=
    if SetattrValid.Gid valid
    then with_Attributes (Attr.with_Gid (SetattrRequest.Gid req) (Attributes file)) file
    else file in
  let file :=
    if SetattrValid.Atime valid
    then with_Attributes (Attr.with_Atime (SetattrRequest.Atime req) (Attributes file)) file
    else file in
  let file :=
    if SetattrValid.Mtime valid
    then with_Attributes (Attr.with_Mtime (SetattrRequest.Mtime req) (Attributes file)) file
    else file in
  if SetattrValid.Size valid then
    let currentSize := slice.len (Data file) in
    let newSize := int64 (SetattrRequest.Size req) in
    if newSize <? currentSize then
      match slice.upto (Data file) newSize with
      | Some data => Setattr_stamp (with_Data data file) req now
      | None => (Panic, file)
      end
    else if newSize >? currentSize then
      if newSize >? MAX_FILE_SIZE then (Err EFBIG, file)
      else
        match slice.make newSize newSize with
        | Some newData =>
            let newData := slice.copy newData (slice.live (Data file)) in
            Setattr_stamp (with_Data newData file) req now
        | None => (Panic, file)
        end
    else Setattr_stamp file req now
  else (Ok (SetattrResponse.mk (Attributes file)), file).

Definition Read (file : t) (req : ReadRequest.t) : Outcome ReadResponse.t :=
  if ReadRequest.Offset req >=? slice.len (Data file) then
    Ok (ReadResponse.mk slice.empty)
  else
    let offset := ReadRequest.Offset req in
    let end_ := int64 (offset + ReadRequest.Size req) in
    let end_ := if end_ >? slice.len (Data file) then slice.len (Data file) else end_ in
    match slice.sub (Data file) offset end_ with
    | Some data => Ok (ReadResponse.mk data)
    | None => Panic
    end.

Definition Write (file : t) (req : WriteRequest.t) (now : time_Time)
    : Outcome WriteResponse.t * t :=
  let reqLen := Z.of_nat (length (WriteRequest.Data req)) in
  let newSize := uint64 (uint64 (WriteRequest.Offset req) + reqLen) in
  if newSize >? MAX_FILE_SIZE then (Err EFBIG, file)
  else
    let fileLen := slice.len (Data file) in
    let resized : option slice.t :=
      if newSize >? fileLen then
        let newCapacity := newSize in
        let newCapacity :=
          if newCapacity <? uint64 (fileLen * 2) then uint64 (fileLen * 2)
          else newCapacity in
        let newCapacity :=
          if newCapacity >? MAX_FILE_SIZE then MAX_FILE_SIZE else newCapacity in
        match slice.make newSize newCapacity with
        | Some newData => Some (slice.copy newData (slice.live (Data file)))
        | None => None
        end
      else if int64 (WriteRequest.Offset req + reqLen) >? slice.len (Data file) then
        slice.upto (Data file) (int64 (WriteRequest.Offset req + reqLen))
      else Some (Data file) in
    match resized with
    | None => (Panic, file)
    | Some data =>
        let file := with_Data data file in
        (* copy(file.Data[req.Offset:], req.Data) *)
        match slice.sub data (WriteRequest.Offset req) (slice.len data) with
        | None => (Panic, file)
        | Some _ =>
            let data :=
              slice.copy_at data (Z.to_nat (WriteRequest.Offset req))
                            (WriteRequest.Data req) in
            let file := with_Data data file in
            let file :=
              with_Attributes
                (Attr.with_Mtime now
                   (Attr.with_Size (slice.len (Data file))
                      (Attributes file))) file in
            (Ok (WriteResponse.mk reqLen), file)
        end
    end.

End File.

(** ** The node tree *)

(** [xbin25.XBin25Config] is declared in the package
    github.com/nthnn/xbin25; the record holds the arguments main.go calls
    [xbin25.NewConfig] with. *)
Module XBin25Config.
Record t : Set := mk {
  encCert : string; encKey : string; signCert : string; signKey : string;
  label : string; dur : Z; blockSize : Z
}.
End XBin25Config.

(** [Children map[string]fs.Node] holds the nodes a directory owns; the
    only node types of the program are [*Dir] and [*File]. *)
Inductive Node : Type :=
  | NDir (d : Dir_t)
  | NFile (f : File.t)
with Dir_t : Type :=
  | mkDir (Attributes : Attr.t) (Children : gmap string Node)
          (Config : XBin25Config.t).

(** ** node.go: the inode counter *)

(** [var inodeCounter uint64 = 2] *)
Definition inodeCounter_initial : Z := 2.

(** [atomic.AddUint64(&inodeCounter, 1)], then the overflow check. The
    second component is the counter after the call. *)
Definition GetInodeAndIncrease (inodeCounter : Z) : Outcome Z * Z :=
  let new := uint64 (inodeCounter + 1) in
  if new =? 0 then (Panic, new) else (Ok new, new).

Definition LoadInodeCounter (saved : Z) (inodeCounter : Z) : Z := saved.

Definition CurrentInodeCounter (inodeCounter : Z) : Z := inodeCounter.

(** ** node.go: access control *)

(** [0200], [0020], [0002] and [0o777]. *)
Definition perm_owner_w : Z := 128.
Definition perm_group_w : Z := 16.
Definition perm_other_w : Z := 2.
Definition ModePerm : Z := 511.

(** Bits of [os.FileMode]. *)
Definition ModeDir : Z := 2 ^ 31.
Definition ModeSetuid_bit : Z := 23.
Definition ModeSetgid_bit : Z := 22.
Definition ModeSticky_bit : Z := 20.

(** [os.FileMode.Perm]: [m & ModePerm]. *)
Definition FileMode_Perm (m : Z) : Z := Z.land m ModePerm.

Definition hasWritePermission (uid gid : Z) (attr : Attr.t) : bool :=
  if uid =? Attr.Uid attr then negb (Z.land (Attr.Mode attr) perm_owner_w =? 0)
  else if gid =? Attr.Gid attr then negb (Z.land (Attr.Mode attr) perm_group_w =? 0)
  else negb (Z.land (Attr.Mode attr) perm_other_w =? 0).

(** ** [path/filepath.Base], for the separator [/]

    The library function, as the Go standard library defines it: the
    empty path gives ["."]; trailing separators are stripped; what follows
    the last separator is kept; a path of separators only gives ["/"]. *)

Definition is_sep (c : ascii) : bool := Ascii.eqb c "/"%char.

Fixpoint drop_seps (l : list ascii) : list ascii :=
  match l with
  | c :: l' => if is_sep c then drop_seps l' else l
  | [] => []
  end.

Fixpoint until_sep (l : list ascii) : list ascii :=
  match l with
  | c :: l' => if is_sep c then [] else c :: until_sep l'
  | [] => []
  end.

Definition strip_trailing_seps (l : list ascii) : list ascii :=
  rev (drop_seps (rev l)).

Definition last_element (l : list ascii) : list ascii :=
  rev (until_sep (rev l)).

Definition filepath_Base (path : string) : string :=
  if String.eqb path "" then "."
  else
    let path := strip_trailing_seps (list_ascii_of_string path) in
    let path := last_element path in
    match path with
    | [] => "/"
    | _ => string_of_list_ascii path
    end.

(** ** node.go: directories *)

(** Nodes are addressed by pointer: [Rename] receives two of them, which
    may be the same directory. *)
Definition ptr : Set := positive.

Inductive LockEvent : Set :=
  | Lock (p : ptr)
  | Unlock (p : ptr).

Module Dir.
Abbreviation t := Dir_t.
Abbreviation mk := mkDir.
Definition Attributes (d : t) : Attr.t := let 'mkDir a _ _ := d in a.
Definition Children (d : t) : gmap string Node := let 'mkDir _ c _ := d in c.
Definition Config (d : t) : XBin25Config.t := let 'mkDir _ _ c := d in c.
Definition with_Attributes (a : Attr.t) (d : t) : t :=
  mkDir a (Children d) (Config d).
Definition with_Children (c : gmap string Node) (d : t) : t :=
  mkDir (Attributes d) c (Config d).

(** [directory.Attributes.Mtime = m; directory.Attributes.Ctime = c] *)
Definition touch (m c : time_Time) (d : t) : t :=
  with_Attributes (Attr.with_Ctime c (Attr.with_Mtime m (Attributes d))) d.

Definition Lookup (directory : t) (name : string) : Outcome Node :=
  match Children directory !! name with
  | Some child => Ok child
  | None => Err ENOENT
  end.

(** [Setattr] of a directory applies mode, uid, gid, atime and mtime; a
    size in the mask is not looked at. *)
Definition Setattr (directory : t) (req : SetattrRequest.t)
    : Outcome SetattrResponse.t * t :=
  let valid := SetattrRequest.Valid req in
  let directory :=
    if SetattrValid.Mode valid
    then with_Attributes (Attr.with_Mode (SetattrRequest.Mode req) (Attributes directory)) directory
    else directory in
  let directory :=
    if SetattrValid.Uid valid
    then with_Attributes (Attr.with_Uid (SetattrRequest.Uid req) (Attributes directory)) directory
    else directory in
  let directory :=
    if SetattrValid.Gid valid
    then with_Attributes (Attr.with_Gid (SetattrRequest.Gid req) (Attributes directory)) directory
    else directory in
  let directory :=
    if SetattrValid.Atime valid
    then with_Attributes (Attr.with_Atime (SetattrRequest.Atime req) (Attributes directory)) directory
    else directory in
  let directory :=
    if SetattrValid.Mtime valid
    then with_Attributes (Attr.with_Mtime (SetattrRequest.Mtime req) (Attributes directory)) directory
    else directory in
  (Ok (SetattrResponse.mk (Attributes directory)), directory).

(** Modelled from the spec: the interface [AttrGetter] and its method
    [GetAttr] are declared in a file of the repository that is not part
    of the sources at hand; [GetAttr] returns the attributes of the
    node. *)
Definition GetAttr (node : Node) : Attr.t :=
  match node with
  | NDir d => Attributes d
  | NFile f => File.Attributes f
  end.

(** The entries come in the order the map is iterated in, which Go
    leaves open; here it is the order of [map_to_list]. *)
Definition ReadDirAll (directory : t) : Outcome (list Dirent.t) :=
  Ok ((fun '(name, node) =>
         Dirent.mk (Attr.Inode (GetAttr node)) name
           (match node with NDir _ => DT_Dir | NFile _ => DT_File end))
        <$> map_to_list (Children directory)).

Section WithValidateName.

(** [ValidateName] is defined in a file of the repository that is not
    part of the sources at hand: the operations are given for any such
    function ([None] is the nil error). *)
Variable ValidateName : string -> option Errno.

Definition Mkdir (directory : t) (req : MkdirRequest.t) (now : time_Time)
    (inodeCounter : Z) : Outcome t * t * Z :=
  let name := MkdirRequest.Name req in
  match ValidateName name with
  | Some err => (Err err, directory, inodeCounter)
  | None =>
    match Children directory !! name with
    | Some _ => (Err EEXIST, directory, inodeCounter)
    | None =>
      if negb (Header.Uid (MkdirRequest.Header req) =? Attr.Uid (Attributes directory))
      then (Err EPERM, directory, inodeCounter)
      else if negb (Header.Gid (MkdirRequest.Header req) =? Attr.Gid (Attributes directory))
      then (Err EPERM, directory, inodeCounter)
      else
        let safePerm := Z.land (FileMode_Perm (MkdirRequest.Mode req)) 511 in
        match GetInodeAndIncrease inodeCounter with
        | (Ok inode, inodeCounter) =>
            let dir :=
              mkDir
                (Attr.mk inode 0 now now now (Z.lor ModeDir safePerm)
                   (Header.Uid (MkdirRequest.Header req))
                   (Header.Gid (MkdirRequest.Header req)))
                ∅
                (Config directory) in
            let directory :=
              with_Children (<[name := NDir dir]> (Children directory)) directory in
            let directory := touch now now directory in
            (Ok dir, directory, inodeCounter)
        | (_, inodeCounter) => (Panic, directory, inodeCounter)
        end
    end
  end.

(** The octal masks of [Create]: [0200 0020 0002] for writing, [0100
    0010 0001] for searching. *)
Definition Create (directory : t) (req : CreateRequest.t) (now : time_Time)
    (inodeCounter : Z) : Outcome File.t * t * Z :=
  let name := CreateRequest.Name req in
  match ValidateName name with
  | Some err => (Err err, directory, inodeCounter)
  | None =>
    match Children directory !! name with
    | Some _ => (Err EEXIST, directory, inodeCounter)
    | None =>
      let uid := Header.Uid (CreateRequest.Header req) in
      let gid := Header.Gid (CreateRequest.Header req) in
      let fileMode := Attr.Mode (Attributes directory) in
      if (if uid =? Attr.Uid (Attributes directory) then Z.land fileMode 128 =? 0
          else if gid =? Attr.Gid (Attributes directory) then Z.land fileMode 16 =? 0
          else Z.land fileMode 2 =? 0)
      then (Err EACCES, directory, inodeCounter)
      else if (if uid =? Attr.Uid (Attributes directory) then Z.land fileMode 64 =? 0
               else if gid =? Attr.Gid (Attributes directory) then Z.land fileMode 8 =? 0
               else Z.land fileMode 1 =? 0)
      then (Err EACCES, directory, inodeCounter)
      else
        match GetInodeAndIncrease inodeCounter with
        | (Ok inode, inodeCounter) =>
            let file :=
              File.mk
                (Attr.mk inode 0 now now now (FileMode_Perm (CreateRequest.Mode req))
                   uid gid)
                slice.empty in
            let directory :=
              with_Children (<[name := NFile file]> (Children directory)) directory in
            let directory := touch now now directory in
            (Ok file, directory, inodeCounter)
        | (_, inodeCounter) => (Panic, directory, inodeCounter)
        end
    end
  end.

(** [time.Now()] is read twice: [now1] stamps [Mtime], [now2] [Ctime]. *)
Definition Remove (directory : t) (req : RemoveRequest.t) (now1 now2 : time_Time)
    : Outcome unit * t :=
  let name := RemoveRequest.Name req in
  match ValidateName name with
  | Some err => (Err err, directory)
  | None =>
    match Children directory !! name with
    | None => (Err ENOENT, directory)
    | Some _ =>
      if negb (Header.Uid (RemoveRequest.Header req) =? Attr.Uid (Attributes directory))
      then (Err EPERM, directory)
      else if negb (Header.Gid (RemoveRequest.Header req) =? Attr.Gid (Attributes directory))
      then (Err EPERM, directory)
      else
        let directory := with_Children (delete name (Children directory)) directory in
        let directory := touch now1 now2 directory in
        (Ok tt, directory)
    end
  end.

End WithValidateName.

(** The name test at the head of [Rename]: [true] when the name is
    rejected. *)
Definition Rename_bad_name (name : string) : bool :=
  negb (String.eqb name (filepath_Base name))
  || String.eqb name ".." || String.eqb name ".".

(** An update of the directory object behind a pointer. *)
Definition modify (f : t -> t) (p : ptr) (σ : gmap ptr Node) : gmap ptr Node :=
  alter (fun n => match n with NDir d => NDir (f d) | NFile _ => n end) p σ.

(** [σ] holds the objects behind the two pointers of the call, each
    directory with the nodes its map refers to; the call moves the child
    as it is. The third component lists the mutex operations of the call
    in the order they happen (the deferred unlocks run last, in reverse
    order). *)
Definition Rename (σ : gmap ptr Node) (directory : ptr) (req : RenameRequest.t)
    (newDir : ptr) (now : time_Time)
    : Outcome unit * gmap ptr Node * list LockEvent :=
  if Rename_bad_name (RenameRequest.NewName req) then (Err EINVAL, σ, [])
  else if Rename_bad_name (RenameRequest.OldName req) then (Err EINVAL, σ, [])
  else
    match σ !! newDir with
    | Some (NDir target) =>
      match σ !! directory with
      | Some (NDir source) =>
        let hdr := RenameRequest.Header req in
        if negb (hasWritePermission (Header.Uid hdr) (Header.Gid hdr) (Attributes source))
           || negb (hasWritePermission (Header.Uid hdr) (Header.Gid hdr) (Attributes target))
        then (Err EACCES, σ, [])
        else
          let '(first, second) :=
            if Attr.Inode (Attributes source) >? Attr.Inode (Attributes target)
            then (newDir, directory) else (directory, newDir) in
          let locks :=
            Lock first :: (if decide (first = second) then [] else [Lock second]) in
          let unlocks :=
            (if decide (first = second) then [] else [Unlock second]) ++ [Unlock first] in
          match Children source !! RenameRequest.OldName req with
          | None => (Err ENOENT, σ, locks ++ unlocks)
          | Some child =>
            let σ := modify (fun d => with_Children
                         (delete (RenameRequest.NewName req) (Children d)) d) newDir σ in
            let σ := modify (fun d => with_Children
                         (delete (RenameRequest.OldName req) (Children d)) d) directory σ in
            let σ := modify (fun d => with_Children
                         (<[RenameRequest.NewName req := child]> (Children d)) d) newDir σ in
            let σ := modify (touch now now) directory σ in
            let σ := modify (touch now now) newDir σ in
            (Ok tt, σ, locks ++ unlocks)
          end
      | _ => (Panic, σ, [])
      end
    | _ => (Err EINVAL, σ, [])
    end.

End Dir.

(** [GetTotalInodes]: one for the directory, one for each file, and the
    count of each subdirectory, added up in [uint64]. The sum does not
    depend on the order in which the map is iterated. *)
Fixpoint Node_count (node : Node) : Z :=
  match node with
  | NDir n => GetTotalInodes n
  | NFile _ => 1
  end
with GetTotalInodes (dir : Dir.t) : Z :=
  match dir with
  | mkDir _ children _ =>
      map_fold (fun _ c count => uint64 (count + c)) 1 (Node_count <$> children)
  end.

(** ** serialization.go: the snapshot codec *)

Module SerializableFile.
Record t : Type := mk { Attributes : Attr.t; Data : slice.t }.
End SerializableFile.

(** [Dir] and [File] of a [SerializableNode] and [RootDir] of the
    envelope are pointers: [None] is nil. *)
Inductive SerializableNode : Type :=
  | mkSerializableNode (Type_ : string) (Dir : option SerializableDir)
      (File : option SerializableFile.t)
with SerializableDir : Type :=
  | mkSerializableDir (Attributes : Attr.t)
      (Children : gmap string SerializableNode).

Module SerializableX25fs.
Record t : Type := mk {
  Version : Z;       (* uint32 *)
  RootDir : option SerializableDir;
  InodeCounter : Z   (* uint64 *)
}.
End SerializableX25fs.

(** Modelled from the spec: the struct [X25fs] is declared in a file of
    the repository that is not part of the sources at hand; the sources
    use its one field [RootDir], the distinguished root directory. *)
Module X25fs.
Record t : Type := mk { RootDir : Dir.t }.
End X25fs.

Definition X25FS_VERSION : Z := 10000.

(** The body of the loop of [SerializeDir], and the function itself. *)
Fixpoint SerializeNode (node : Node) : SerializableNode :=
  match node with
  | NDir n => mkSerializableNode "dir" (Some (SerializeDir n)) None
  | NFile n =>
      mkSerializableNode "file" None
        (Some (SerializableFile.mk (File.Attributes n) (File.Data n)))
  end
with SerializeDir (directory : Dir.t) : SerializableDir :=
  match directory with
  | mkDir attributes children _ =>
      mkSerializableDir attributes (SerializeNode <$> children)
  end.

(** What the loop of [DeserializeDir] does with the children once each
    one has been looked at: a child whose pointer was nil makes the call
    panic ([None] in the map), a child of an unknown type is skipped
    ([Some None]). *)
Definition gather {A} (m : gmap string (option (option A))) : option (gmap string A) :=
  if decide (map_Forall (fun _ r => is_Some r) m)
  then Some (omap (fun r => default None r) m)
  else None.

Fixpoint DeserializeNode (cfg : XBin25Config.t) (node : SerializableNode)
    : option (option Node) :=
  match node with
  | mkSerializableNode type_ dir file =>
      if String.eqb type_ "dir" then
        match dir with
        | Some sd =>
            match DeserializeDir cfg sd with
            | Some d => Some (Some (NDir d))
            | None => None
            end
        | None => None
        end
      else if String.eqb type_ "file" then
        match file with
        | Some sf =>
            Some (Some (NFile (File.mk (SerializableFile.Attributes sf)
                                       (SerializableFile.Data sf))))
        | None => None
        end
      else Some None
  end
with DeserializeDir (cfg : XBin25Config.t) (sd : SerializableDir) : option Dir.t :=
  match sd with
  | mkSerializableDir attributes children =>
      match gather (DeserializeNode cfg <$> children) with
      | Some children => Some (mkDir attributes children cfg)
      | None => None
      end
  end.

(** ** serialization.go: the persistence manager

    The collaborators of [SaveData] and [LoadData] are outside the
    repository: the msgpack codec, the encryption provider of the
    configuration, and the file system. Their results are byte strings
    the program never looks into, so the type of these strings is left
    open; [None] is a non-nil error. *)

Inductive Any (B : Type) : Type :=
  | AnyBytes (b : B)   (* a value whose dynamic type is []byte *)
  | AnyOther.
Arguments AnyBytes {B} b.
Arguments AnyOther {B}.

Class External : Type := {
  Blob : Type;
  Disk : Type;
  msgpack_Marshal : SerializableX25fs.t -> option Blob;
  msgpack_Unmarshal : Blob -> option SerializableX25fs.t;
  xbin25_Marshall : XBin25Config.t -> Blob -> option Blob;
  xbin25_Unmarshall : XBin25Config.t -> Blob -> option (Any Blob);
  os_ReadFile : Disk -> string -> option Blob;
  renameio_WriteFile : Disk -> string -> Blob -> option Disk
}.

Inductive SaveError : Set :=
  | msgpack_encode_failed
  | encryption_failed
  | atomic_write_failed.

Inductive LoadError : Set :=
  | failed_to_read_file
  | decryption_failed
  | decrypted_data_is_not_bytes
  | msgpack_decode_failed
  | unmatched_version (expecting got : Z).

Section Persistence.
Context `{External}.

(** The state is the disk; [inodeCounter] is the global the call reads.
    The result is the error ([None] for nil) and the disk afterwards. *)
Definition SaveData (xfs : X25fs.t) (cfg : XBin25Config.t) (diskFile : string)
    (inodeCounter : Z) (disk : Disk) : option SaveError * Disk :=
  let sxfs :=
    SerializableX25fs.mk X25FS_VERSION
      (Some (SerializeDir (X25fs.RootDir xfs)))
      (CurrentInodeCounter inodeCounter) in
  match msgpack_Marshal sxfs with
  | None => (Some msgpack_encode_failed, disk)
  | Some buf =>
    match xbin25_Marshall cfg buf with
    | None => (Some encryption_failed, disk)
    | Some encrypted =>
      match renameio_WriteFile disk diskFile encrypted with
      | None => (Some atomic_write_failed, disk)
      | Some disk => (None, disk)
      end
    end
  end.

(** The result comes with the value of the global [inodeCounter] after
    the call. *)
Definition LoadData (cfg : XBin25Config.t) (diskFile : string)
    (inodeCounter : Z) (disk : Disk) : Result LoadError X25fs.t * Z :=
  match os_ReadFile disk diskFile with
  | None => (Err failed_to_read_file, inodeCounter)
  | Some encrypted =>
    match xbin25_Unmarshall cfg encrypted with
    | None => (Err decryption_failed, inodeCounter)
    | Some decrypted =>
      match decrypted with
      | AnyOther => (Err decrypted_data_is_not_bytes, inodeCounter)
      | AnyBytes msgpackBytes =>
        match msgpack_Unmarshal msgpackBytes with
        | None => (Err msgpack_decode_failed, inodeCounter)
        | Some sxfs =>
          if negb (SerializableX25fs.Version sxfs =? X25FS_VERSION) then
            (Err (unmatched_version X25FS_VERSION (SerializableX25fs.Version sxfs)),
             inodeCounter)
          else
            let inodeCounter :=
              LoadInodeCounter (SerializableX25fs.InodeCounter sxfs) inodeCounter in
            match SerializableX25fs.RootDir sxfs with
            | None => (Panic, inodeCounter)
            | Some root =>
              match DeserializeDir cfg root with
              | Some d => (Ok (X25fs.mk d), inodeCounter)
              | None => (Panic, inodeCounter)
              end
            end
        end
      end
    end
  end.

End Persistence.

(** ** What a tree holds

    The hierarchy, the attributes and the file contents of a tree: the
    child names of every directory, the attributes of every node (inode
    included) and the bytes of every file. The configuration pointer of a
    directory and the spare capacity of a buffer are not part of it. *)

Inductive Tree : Type :=
  | TDir (attr : Attr.t) (children : gmap string Tree)
  | TFile (attr : Attr.t) (bytes : list byte).

Fixpoint Node_content (node : Node) : Tree :=
  match node with
  | NDir d => Dir_content d
  | NFile f => TFile (File.Attributes f) (slice.live (File.Data f))
  end
with Dir_content (d : Dir.t) : Tree :=
  match d with
  | mkDir attributes children _ => TDir attributes (Node_content <$> children)
  end.

(** A mirror with the spare capacity of every buffer dropped: two mirrors
    with the same clipped form differ in nothing a byte-level encoding
    can carry. *)
Fixpoint SerializableNode_clip (node : SerializableNode) : SerializableNode :=
  match node with
  | mkSerializableNode type_ dir file =>
      mkSerializableNode type_
        (match dir with
         | Some sd => Some (SerializableDir_clip sd)
         | None => None
         end)
        (match file with
         | Some sf =>
             Some (SerializableFile.mk (SerializableFile.Attributes sf)
                                       (slice.clip (SerializableFile.Data sf)))
         | None => None
         end)
  end
with SerializableDir_clip (sd : SerializableDir) : SerializableDir :=
  match sd with
  | mkSerializableDir attributes children =>
      mkSerializableDir attributes (SerializableNode_clip <$> children)
  end.

Definition SerializableX25fs_clip (sxfs : SerializableX25fs.t) : SerializableX25fs.t :=
  SerializableX25fs.mk (SerializableX25fs.Version sxfs)
    (SerializableDir_clip <$> SerializableX25fs.RootDir sxfs)
    (SerializableX25fs.InodeCounter sxfs).

(** ** Mutexes under interleaving

    A thread is the list of mutex operations it still has to perform and
    the mutexes it holds. [Lock] needs the mutex to be held by nobody
    (a [sync.RWMutex] is not reentrant); [Unlock] never waits. *)

Definition Thread : Set := list LockEvent * list ptr.

Definition free (p : ptr) (pool : list Thread) : Prop :=
  forall t, t ∈ pool -> p ∉ t.2.

Inductive thread_step (pool : list Thread) : Thread -> Thread -> Prop :=
  | step_Lock p rest held :
      free p pool -> thread_step pool (Lock p :: rest, held) (rest, p :: held)
  | step_Unlock p rest held :
      thread_step pool (Unlock p :: rest, held)
                  (rest, filter (fun q => q <> p) held).

Inductive step : list Thread -> list Thread -> Prop :=
  | step_thread pool i t t' :
      pool !! i = Some t -> thread_step pool t t' ->
      step pool (<[i := t']> pool).

Definition finished (pool : list Thread) : Prop :=
  forall t, t ∈ pool -> t.1 = [].

Definition deadlocked (pool : list Thread) : Prop :=
  ~ finished pool /\ ~ exists pool', step pool pool'.

(** Every thread starts with its whole trace ahead and no mutex held. *)
Definition spawn (traces : list (list LockEvent)) : list Thread :=
  (fun tr => (tr, [])) <$> traces.




(** Modelled from the spec: [ValidateName] is not part of the sources at
    hand; section 4.1 has it reject the empty name, ["."], [".."] and any
    name containing a separator with [InvalidName]. *)
Definition ValidateName (name : string) : option Errno :=
  if String.eqb name "" || String.eqb name "." || String.eqb name ".."
     || existsb is_sep (list_ascii_of_string name)
  then Some EINVAL else None.

(** ** Auxiliary notions for the statements *)

(** The five assignments at the head of [Setattr] touch neither the
    buffer, nor the size, nor the inode, nor the change time. *)
Definition Setattr_fields (file : File.t) (req : SetattrRequest.t) : File.t :=
  let valid := SetattrRequest.Valid req in
  File.mk
    (Attr.mk (Attr.Inode (File.Attributes file)) (Attr.Size (File.Attributes file))
       (if SetattrValid.Atime valid then SetattrRequest.Atime req
        else Attr.Atime (File.Attributes file))
       (if SetattrValid.Mtime valid then SetattrRequest.Mtime req
        else Attr.Mtime (File.Attributes file))
       (Attr.Ctime (File.Attributes file))
       (if SetattrValid.Mode valid then SetattrRequest.Mode req
        else Attr.Mode (File.Attributes file))
       (if SetattrValid.Uid valid then SetattrRequest.Uid req
        else Attr.Uid (File.Attributes file))
       (if SetattrValid.Gid valid then SetattrRequest.Gid req
        else Attr.Gid (File.Attributes file)))
    (File.Data file).

Definition owner_matches (hdr : Header.t) (directory : Dir.t) : Prop :=
  Header.Uid hdr = Attr.Uid (Dir.Attributes directory)
  /\ Header.Gid hdr = Attr.Gid (Dir.Attributes directory).

Definition with_Mode (m : Z) (directory : Dir.t) : Dir.t :=
  Dir.with_Attributes (Attr.with_Mode m (Dir.Attributes directory)) directory.

Definition has_sep (name : string) : bool :=
  existsb is_sep (list_ascii_of_string name).

Definition may_write (hdr : Header.t) (d : Dir.t) : bool :=
  hasWritePermission (Header.Uid hdr) (Header.Gid hdr) (Dir.Attributes d).

(** The children and timestamps of a directory after a successful
    rename, as source, as destination, and as both. *)
Definition renamed_source (old : string) (now : time_Time) (d : Dir.t) : Dir.t :=
  Dir.touch now now (Dir.with_Children (delete old (Dir.Children d)) d).

Definition renamed_target (new : string) (child : Node) (now : time_Time)
    (d : Dir.t) : Dir.t :=
  Dir.touch now now (Dir.with_Children (<[new := child]> (Dir.Children d)) d).

Definition renamed_within (old new : string) (child : Node) (now : time_Time)
    (d : Dir.t) : Dir.t :=
  Dir.touch now now
    (Dir.with_Children (<[new := child]> (delete old (delete new (Dir.Children d)))) d).




(** Every step performs one mutex operation of one thread: a run is no
    longer than the operations the threads start with. *)
Definition pending (pool : list Thread) : nat :=
  sum_list_with (fun t : Thread => length t.1) pool.

(** The height of a tree, to reason by induction on nodes. *)
Fixpoint Node_depth (node : Node) : nat :=
  match node with
  | NDir d => Dir_depth d
  | NFile _ => 0
  end
with Dir_depth (d : Dir.t) : nat :=
  match d with
  | mkDir _ children _ =>
      S (map_fold (fun _ n acc => Nat.max n acc) 0%nat (Node_depth <$> children))
  end.

(** Collaborators to run the persistence manager with: files kept in a
    map, a codec and a provider that hand the envelope through. *)
Definition in_memory : External := {|
  Blob := SerializableX25fs.t;
  Disk := gmap string SerializableX25fs.t;
  msgpack_Marshal := Some;
  msgpack_Unmarshal := Some;
  xbin25_Marshall := fun _ plain => Some plain;
  xbin25_Unmarshall := fun _ encrypted => Some (AnyBytes encrypted);
  os_ReadFile := fun disk diskFile => disk !! diskFile;
  renameio_WriteFile := fun disk diskFile data => Some (<[diskFile := data]> disk)
|}.

(** The invariant of a file: the size attribute is the length of the
    buffer, which is within the maximum file size. *)
Definition File_ok (file : File.t) : Prop :=
  Attr.Size (File.Attributes file) = slice.len (File.Data file)
  /\ slice.len (File.Data file) <= MAX_FILE_SIZE.

(** The capacity [Write] asks for when the buffer of length [fileLen]
    has to grow to [newSize]. *)
Definition Write_capacity (fileLen newSize : Z) : Z :=
  let newCapacity := newSize in
  let newCapacity :=
    if newCapacity <? uint64 (fileLen * 2) then uint64 (fileLen * 2)
    else newCapacity in
  if newCapacity >? MAX_FILE_SIZE then MAX_FILE_SIZE else newCapacity.

(** The write and search bits [Create] looks at, for a caller and the
    attributes of a directory: those of the owner when the uid is the
    owner's, else those of the group when the gid is the group's, else
    those of the others. *)
Definition triad_bit (hdr : Header.t) (attr : Attr.t) (owner group other : Z) : bool :=
  if Header.Uid hdr =? Attr.Uid attr then negb (Z.land (Attr.Mode attr) owner =? 0)
  else if Header.Gid hdr =? Attr.Gid attr then negb (Z.land (Attr.Mode attr) group =? 0)
  else negb (Z.land (Attr.Mode attr) other =? 0).

(** A tree with the configuration of every directory replaced. *)
Fixpoint Node_with_config (cfg : XBin25Config.t) (node : Node) : Node :=
  match node with
  | NDir d => NDir (Dir_with_config cfg d)
  | NFile f => NFile f
  end
with Dir_with_config (cfg : XBin25Config.t) (d : Dir.t) : Dir.t :=
  match d with
  | mkDir attributes children _ =>
      mkDir attributes (Node_with_config cfg <$> children) cfg
  end.

(** The inodes of the nodes of a tree, the root first. *)
Fixpoint Node_inodes (node : Node) : list Z :=
  match node with
  | NDir d => Dir_inodes d
  | NFile f => [Attr.Inode (File.Attributes f)]
  end
with Dir_inodes (d : Dir.t) : list Z :=
  match d with
  | mkDir attributes children _ =>
      Attr.Inode attributes
        :: concat ((map_to_list (Node_inodes <$> children)).*2)
  end.

(** The inodes of a tree are pairwise distinct, positive, and at most the
    counter. *)
Definition inodes_ok (inodeCounter : Z) (d : Dir.t) : Prop :=
  NoDup (Dir_inodes d)
  /\ Forall (fun i => 0 < i <= inodeCounter) (Dir_inodes d).




Section Contracts.
Context `{External}.

(** The contracts of the collaborators: a file reads back as it was
    written; the provider decrypts what it encrypted, to a byte string;
    the codec decodes what it encoded, up to the spare capacity of the
    buffers. *)
Definition file_reads_back : Prop :=
  forall disk diskFile data disk',
    renameio_WriteFile disk diskFile data = Some disk' ->
    os_ReadFile disk' diskFile = Some data.

Definition provider_decrypts : Prop :=
  forall cfg plain encrypted,
    xbin25_Marshall cfg plain = Some encrypted ->
    xbin25_Unmarshall cfg encrypted = Some (AnyBytes plain).

Definition codec_decodes : Prop :=
  forall sxfs buf,
    msgpack_Marshal sxfs = Some buf ->
    exists sxfs', msgpack_Unmarshal buf = Some sxfs'
                  /\ SerializableX25fs_clip sxfs' = SerializableX25fs_clip sxfs.

End Contracts.

(** * Properties *)

(** ** Machine integers *)

Lemma uint64_small z : 0 <= z < 2 ^ 64 -> uint64 z = z.
Proof. intros. unfold uint64. now apply Z.mod_small. Qed.

Lemma int64_id z : min_int <= z <= max_int -> int64 z = z.
Proof.
  unfold int64, min_int, max_int. intros.
  rewrite Z.mod_small; lia.
Qed.

(** The sum [uint64(offset) + n] of [Write], for an [int64] offset and a
    length: whenever the exact sum is not negative, it is the sum. *)
Lemma uint64_offset_plus off n :
  min_int <= off <= max_int -> 0 <= n <= max_int -> 0 <= off + n ->
  uint64 (uint64 off + n) = off + n.
Proof.
  unfold uint64, min_int, max_int. intros Hoff Hn Hsum.
  destruct (Z_lt_le_dec off 0) as [Hneg | Hpos].
  - replace (off mod 2 ^ 64) with (off + 2 ^ 64).
    + replace (off + 2 ^ 64 + n) with (off + n + 1 * 2 ^ 64) by lia.
      rewrite Z.mod_add by lia. apply Z.mod_small. lia.
    + symmetry. replace off with (off + 2 ^ 64 + (-1) * 2 ^ 64) at 1 by lia.
      rewrite Z.mod_add by lia. apply Z.mod_small. lia.
  - rewrite (Z.mod_small off) by lia. apply Z.mod_small. lia.
Qed.

(** ** Byte slices *)

Lemma slice_len_nonneg s : 0 <= slice.len s.
Proof. unfold slice.len. lia. Qed.

Lemma slice_len_le_cap s : slice.len s <= slice.cap s.
Proof. unfold slice.len, slice.cap. lia. Qed.

Lemma slice_make_ok n c :
  0 <= n <= c ->
  slice.make n c =
    Some (slice.mk (replicate (Z.to_nat n) x00) (replicate (Z.to_nat (c - n)) x00)).
Proof. intros. unfold slice.make. rewrite bool_decide_eq_true_2; auto. Qed.

(** [copy] into a freshly made buffer at least as long as the source:
    the source followed by zeros. *)
Lemma slice_copy_into_zeros n (src : list byte) :
  (length src <= n)%nat ->
  take (Nat.min (length (replicate n x00)) (length src)) src
    ++ drop (Nat.min (length (replicate n x00)) (length src)) (replicate n x00)
  = src ++ replicate (n - length src) x00.
Proof.
  intros Hle. rewrite length_replicate, Nat.min_r by lia.
  rewrite firstn_all. f_equal. now rewrite drop_replicate.
Qed.

(** Reading back what [copy_at] wrote. *)
Lemma read_back_copy_at (l d sp : list byte) (off : nat) :
  (off + length d <= length l)%nat ->
  take (length d)
       (drop off ((take off l ++ take (Nat.min (length l - off) (length d)) d
                     ++ drop (off + Nat.min (length l - off) (length d)) l) ++ sp))
  = d.
Proof.
  intros Hle. rewrite Nat.min_r by lia. rewrite firstn_all.
  rewrite <- !app_assoc.
  rewrite drop_app_length' by (rewrite length_take; lia).
  now rewrite take_app_length.
Qed.

Lemma length_copy_at (l d : list byte) (off : nat) :
  (off + length d <= length l)%nat ->
  length (take off l ++ take (Nat.min (length l - off) (length d)) d
            ++ drop (off + Nat.min (length l - off) (length d)) l) = length l.
Proof.
  intros Hle. rewrite Nat.min_r by lia. rewrite firstn_all.
  rewrite !length_app, length_take, length_drop. lia.
Qed.

(** ** File.Write *)

(** C2. A write whose end offset [offset + len(bytes)] exceeds the maximum
    file size fails with EFBIG (the TooLarge kind) and leaves the file as
    it was: buffer, size attribute and every other attribute. *)
Theorem Write_too_large (file : File.t) (req : WriteRequest.t) (now : time_Time) :
  min_int <= WriteRequest.Offset req <= max_int ->
  Z.of_nat (length (WriteRequest.Data req)) <= max_int ->
  WriteRequest.Offset req + Z.of_nat (length (WriteRequest.Data req)) > MAX_FILE_SIZE ->
  File.Write file req now = (Err EFBIG, file) /\ kind_of EFBIG = TooLarge.
Proof.
  intros Hoff Hlen Hbig. split; [| reflexivity].
  unfold File.Write.
  rewrite uint64_offset_plus; try lia.
  - destruct (Z.gtb_spec (WriteRequest.Offset req
                          + Z.of_nat (length (WriteRequest.Data req)))
                         MAX_FILE_SIZE); [reflexivity | lia].
  - unfold MAX_FILE_SIZE in Hbig. lia.
Qed.

Lemma Write_too_large_witness :
  File.Write (File.mk (Attr.mk 5 3 0 0 0 420 1000 1000)
                      (slice.mk [x01; x02; x03] []))
             (WriteRequest.mk MAX_FILE_SIZE [x0a]) 77
  = (Err EFBIG,
     File.mk (Attr.mk 5 3 0 0 0 420 1000 1000) (slice.mk [x01; x02; x03] []))
  /\ kind_of EFBIG = TooLarge.
Proof.
  apply (Write_too_large
           (File.mk (Attr.mk 5 3 0 0 0 420 1000 1000) (slice.mk [x01; x02; x03] []))
           (WriteRequest.mk MAX_FILE_SIZE [x0a]) 77);
    vm_compute; intuition congruence.
Defined.

(** What a write within the size cap leaves behind: it succeeds, reports
    the number of bytes of the request, and the buffer holds the request's
    bytes at the offset, is at least as long as the end offset, and keeps
    its length when the write fits in it. *)
Lemma Write_within_cap (file : File.t) (req : WriteRequest.t) (now : time_Time) :
  0 <= WriteRequest.Offset req ->
  WriteRequest.Offset req + Z.of_nat (length (WriteRequest.Data req)) <= MAX_FILE_SIZE ->
  exists file',
    File.Write file req now
      = (Ok (WriteResponse.mk (Z.of_nat (length (WriteRequest.Data req)))), file')
    /\ (Z.to_nat (WriteRequest.Offset req) + length (WriteRequest.Data req)
        <= length (slice.live (File.Data file')))%nat
    /\ take (length (WriteRequest.Data req))
            (drop (Z.to_nat (WriteRequest.Offset req))
                  (slice.live (File.Data file') ++ slice.spare (File.Data file')))
       = WriteRequest.Data req
    /\ Attr.Size (File.Attributes file') = slice.len (File.Data file')
    /\ Attr.Mtime (File.Attributes file') = now.
Proof.
  destruct file as [attrs [live spare]], req as [off data]; simpl.
  intros Hoff Hcap.
  assert (HM : MAX_FILE_SIZE = 536870912) by reflexivity.
  unfold File.Write; simpl.
  rewrite uint64_offset_plus by (unfold min_int, max_int; lia).
  destruct (Z.gtb_spec (off + Z.of_nat (length data)) MAX_FILE_SIZE) as [? | _];
    [lia |].
  unfold slice.len; simpl.
  destruct (Z.gtb_spec (off + Z.of_nat (length data)) (Z.of_nat (length live)))
    as [Hgrow | Hfit].
  - (* the buffer grows to the end offset *)
    set (c1 := if off + Z.of_nat (length data) <? uint64 (Z.of_nat (length live) * 2)
               then uint64 (Z.of_nat (length live) * 2)
               else off + Z.of_nat (length data)).
    assert (Hc1 : off + Z.of_nat (length data) <= c1).
    { subst c1. destruct (Z.ltb_spec (off + Z.of_nat (length data))
                            (uint64 (Z.of_nat (length live) * 2))); lia. }
    set (c2 := if c1 >? MAX_FILE_SIZE then MAX_FILE_SIZE else c1).
    assert (Hc2 : off + Z.of_nat (length data) <= c2).
    { subst c2. destruct (Z.gtb_spec c1 MAX_FILE_SIZE); lia. }
    rewrite slice_make_ok by lia.
    unfold slice.copy; simpl.
    rewrite slice_copy_into_zeros by lia.
    set (grown := live ++ replicate (Z.to_nat (off + Z.of_nat (length data))
                                     - length live) x00).
    assert (Hlen : length grown = Z.to_nat (off + Z.of_nat (length data))).
    { subst grown. rewrite length_app, length_replicate. lia. }
    unfold slice.sub, slice.len, slice.cap; simpl.
    rewrite bool_decide_eq_true_2 by (rewrite Hlen; lia).
    unfold slice.copy_at; simpl.
    eexists. split; [reflexivity |]. simpl.
    assert (Hin : (Z.to_nat off + length data <= length grown)%nat) by lia.
    split; [now rewrite length_copy_at |].
    split; [now apply read_back_copy_at |].
    split; [| reflexivity].
    unfold slice.len; simpl. reflexivity.
  - (* the write fits in the buffer *)
    rewrite int64_id by (unfold min_int, max_int; lia).
    destruct (Z.gtb_spec (off + Z.of_nat (length data)) (Z.of_nat (length live)));
      [lia |].
    unfold slice.sub, slice.len, slice.cap; simpl.
    rewrite bool_decide_eq_true_2 by lia.
    unfold slice.copy_at; simpl.
    eexists. split; [reflexivity |]. simpl.
    assert (Hin : (Z.to_nat off + length data <= length live)%nat) by lia.
    split; [now rewrite length_copy_at |].
    split; [now apply read_back_copy_at |].
    split; [| reflexivity].
    unfold slice.len; simpl. reflexivity.
Qed.

(** ** File.Read *)

(** C6. A read returns the requested range clamped to the length of the
    buffer: the bytes from the offset on, at most [size] of them; at or
    past the end of the data it returns no byte; it returns a response,
    never an error nor a panic, however far the offset lies past the end.
    Offsets and sizes are the non-negative numbers a read request
    carries. *)
Theorem Read_clamped (file : File.t) (req : ReadRequest.t) :
  0 <= ReadRequest.Offset req ->
  0 <= ReadRequest.Size req ->
  slice.len (File.Data file) + ReadRequest.Size req <= max_int ->
  exists data,
    File.Read file req = Ok (ReadResponse.mk data)
    /\ slice.live data
       = take (Z.to_nat (ReadRequest.Size req))
              (drop (Z.to_nat (ReadRequest.Offset req)) (slice.live (File.Data file)))
    /\ (slice.len (File.Data file) <= ReadRequest.Offset req -> slice.live data = []).
Proof.
  destruct file as [attrs [live spare]], req as [off size]; simpl.
  unfold slice.len; simpl. intros Hoff Hsize Hno.
  unfold File.Read; simpl. unfold slice.len; simpl.
  destruct (Z.geb_spec off (Z.of_nat (length live))) as [Hpast | Hin].
  - eexists. split; [reflexivity |]. simpl.
    rewrite drop_ge by lia. now rewrite take_nil.
  - rewrite int64_id by (unfold min_int, max_int in *; lia).
    set (e := if off + size >? Z.of_nat (length live)
              then Z.of_nat (length live) else off + size).
    assert (He : e = Z.min (off + size) (Z.of_nat (length live))).
    { subst e. destruct (Z.gtb_spec (off + size) (Z.of_nat (length live))); lia. }
    clearbody e.
    unfold slice.sub, slice.cap; simpl.
    rewrite bool_decide_eq_true_2 by lia.
    eexists. split; [reflexivity |]. simpl.
    split; [| lia].
    rewrite drop_app_le by lia.
    rewrite take_app_le by (rewrite length_drop; lia).
    destruct (Z_le_gt_dec (off + size) (Z.of_nat (length live))).
    + f_equal. lia.
    + rewrite !take_ge; auto; rewrite length_drop; lia.
Qed.

Lemma Read_clamped_witness :
  exists data,
    File.Read (File.mk (Attr.mk 5 3 0 0 0 420 1000 1000) (slice.mk [x01; x02; x03] [x09]))
              (ReadRequest.mk 1 10)
    = Ok (ReadResponse.mk data)
    /\ slice.live data = take (Z.to_nat 10) (drop (Z.to_nat 1) [x01; x02; x03])
    /\ (slice.len (slice.mk [x01; x02; x03] [x09]) <= 1 -> slice.live data = []).
Proof.
  apply (Read_clamped
           (File.mk (Attr.mk 5 3 0 0 0 420 1000 1000) (slice.mk [x01; x02; x03] [x09]))
           (ReadRequest.mk 1 10));
    vm_compute; intuition congruence.
Defined.

(** C5. After a write whose end offset is within the size cap, a read at
    the same offset for as many bytes as were written returns exactly
    these bytes. *)
Theorem Write_then_Read (file : File.t) (req : WriteRequest.t) (now : time_Time) :
  0 <= WriteRequest.Offset req ->
  WriteRequest.Offset req + Z.of_nat (length (WriteRequest.Data req)) <= MAX_FILE_SIZE ->
  exists file' data,
    File.Write file req now
      = (Ok (WriteResponse.mk (Z.of_nat (length (WriteRequest.Data req)))), file')
    /\ File.Read file'
         (ReadRequest.mk (WriteRequest.Offset req)
                         (Z.of_nat (length (WriteRequest.Data req))))
       = Ok (ReadResponse.mk data)
    /\ slice.live data = WriteRequest.Data req.
Proof.
  intros Hoff Hcap.
  destruct (Write_within_cap file req now Hoff Hcap)
    as (file' & Hw & Hlen & Hback & _).
  exists file'.
  destruct file' as [attrs' [live' spare']], req as [off data]; simpl in *.
  unfold File.Read; simpl. unfold slice.len; simpl.
  destruct (Z.geb_spec off (Z.of_nat (length live'))) as [Hpast | Hin].
  - exists slice.empty. split; [exact Hw |]. split; [reflexivity |].
    simpl. destruct data; [reflexivity | simpl in *; lia].
  - assert (HM : MAX_FILE_SIZE = 536870912) by reflexivity.
    rewrite int64_id by (unfold min_int, max_int; lia).
    destruct (Z.gtb_spec (off + Z.of_nat (length data)) (Z.of_nat (length live')));
      [lia |].
    unfold slice.sub, slice.cap; simpl.
    rewrite bool_decide_eq_true_2 by lia.
    eexists. split; [exact Hw |]. split; [reflexivity |]. simpl.
    replace (Z.to_nat (off + Z.of_nat (length data) - off)) with (length data) by lia.
    exact Hback.
Qed.

Lemma Write_then_Read_witness :
  exists file' data,
    File.Write (File.mk (Attr.mk 5 3 0 0 0 420 1000 1000) (slice.mk [x01; x02; x03] [x09]))
               (WriteRequest.mk 2 [x0a; x0b; x0c]) 77
      = (Ok (WriteResponse.mk 3), file')
    /\ File.Read file' (ReadRequest.mk 2 3) = Ok (ReadResponse.mk data)
    /\ slice.live data = [x0a; x0b; x0c].
Proof.
  apply (Write_then_Read
           (File.mk (Attr.mk 5 3 0 0 0 420 1000 1000) (slice.mk [x01; x02; x03] [x09]))
           (WriteRequest.mk 2 [x0a; x0b; x0c]) 77);
    vm_compute; intuition congruence.
Defined.

(** Offsets below zero are outside what a request carries (the kernel
    sends an unsigned offset that fits an [int64]); nothing in [Read] or
    [Write] guards against one, and the slice expression panics. *)
Lemma negative_offset_panics :
  File.Read (File.mk (Attr.mk 5 3 0 0 0 420 1000 1000) (slice.mk [x01; x02; x03] []))
            (ReadRequest.mk (-1) 2) = Panic
  /\ (File.Write (File.mk (Attr.mk 5 3 0 0 0 420 1000 1000) (slice.mk [x01; x02; x03] []))
                 (WriteRequest.mk (-1) [x0a; x0b]) 77).1 = Panic.
Proof. split; reflexivity. Qed.

(** ** File.Setattr *)

Lemma Setattr_unfold (file : File.t) (req : SetattrRequest.t) (now : time_Time) :
  File.Setattr file req now =
    let file := Setattr_fields file req in
    if SetattrValid.Size (SetattrRequest.Valid req) then
      let currentSize := slice.len (File.Data file) in
      let newSize := int64 (SetattrRequest.Size req) in
      if newSize <? currentSize then
        match slice.upto (File.Data file) newSize with
        | Some data => File.Setattr_stamp (File.with_Data data file) req now
        | None => (Panic, file)
        end
      else if newSize >? currentSize then
        if newSize >? MAX_FILE_SIZE then (Err EFBIG, file)
        else
          match slice.make newSize newSize with
          | Some newData =>
              let newData := slice.copy newData (slice.live (File.Data file)) in
              File.Setattr_stamp (File.with_Data newData file) req now
          | None => (Panic, file)
          end
      else File.Setattr_stamp file req now
    else (Ok (SetattrResponse.mk (File.Attributes file)), file).
Proof.
  destruct file as [[inode size atime mtime ctime mode uid gid] data].
  unfold File.Setattr, Setattr_fields; simpl.
  destruct (SetattrValid.Mode _), (SetattrValid.Uid _), (SetattrValid.Gid _),
    (SetattrValid.Atime _), (SetattrValid.Mtime _); reflexivity.
Qed.

(** C3, as the code has it. Fields the mask does not select are left as
    they were, except that a selected size also stamps the modification
    time with the current time. A selected size below the length of the
    buffer truncates it; one above it, up to the maximum file size, extends
    it with zero bytes; one above it and past the maximum fails with EFBIG
    (the TooLarge kind) and leaves buffer and size attribute as they
    were. *)
Theorem Setattr_partial_update (file : File.t) (req : SetattrRequest.t)
    (now : time_Time) :
  0 <= SetattrRequest.Size req <= max_int ->
  let valid := SetattrRequest.Valid req in
  let size := SetattrRequest.Size req in
  let r := File.Setattr file req now in
  let attrs := File.Attributes file in
  let attrs' := File.Attributes r.2 in
  let live := slice.live (File.Data file) in
  let live' := slice.live (File.Data r.2) in
  (* fields that are not selected *)
  (SetattrValid.Mode valid = false -> Attr.Mode attrs' = Attr.Mode attrs)
  /\ (SetattrValid.Uid valid = false -> Attr.Uid attrs' = Attr.Uid attrs)
  /\ (SetattrValid.Gid valid = false -> Attr.Gid attrs' = Attr.Gid attrs)
  /\ (SetattrValid.Atime valid = false -> Attr.Atime attrs' = Attr.Atime attrs)
  /\ (SetattrValid.Mtime valid = false -> SetattrValid.Size valid = false ->
      Attr.Mtime attrs' = Attr.Mtime attrs)
  /\ (SetattrValid.Size valid = false ->
      Attr.Size attrs' = Attr.Size attrs /\ File.Data r.2 = File.Data file
      /\ r.1 = Ok (SetattrResponse.mk attrs'))
  (* a selected size *)
  /\ (SetattrValid.Size valid = true -> size < Z.of_nat (length live) ->
      r.1 = Ok (SetattrResponse.mk attrs')
      /\ live' = take (Z.to_nat size) live
      /\ Attr.Size attrs' = size /\ Attr.Mtime attrs' = now)
  /\ (SetattrValid.Size valid = true ->
      Z.of_nat (length live) < size -> size <= MAX_FILE_SIZE ->
      r.1 = Ok (SetattrResponse.mk attrs')
      /\ live' = live ++ replicate (Z.to_nat size - length live) x00
      /\ Attr.Size attrs' = size /\ Attr.Mtime attrs' = now)
  /\ (SetattrValid.Size valid = true -> size = Z.of_nat (length live) ->
      r.1 = Ok (SetattrResponse.mk attrs')
      /\ File.Data r.2 = File.Data file
      /\ Attr.Size attrs' = size /\ Attr.Mtime attrs' = now)
  /\ (SetattrValid.Size valid = true ->
      Z.of_nat (length live) < size -> MAX_FILE_SIZE < size ->
      r.1 = Err EFBIG /\ kind_of EFBIG = TooLarge
      /\ File.Data r.2 = File.Data file /\ Attr.Size attrs' = Attr.Size attrs).
Proof.
  intros Hsize valid size r attrs attrs' live live'.
  subst r attrs' live'. rewrite Setattr_unfold.
  destruct file as [[inode fsize atime mtime ctime mode uid gid] [lv sp]].
  unfold Setattr_fields; simpl in *. subst valid size attrs live; simpl.
  rewrite int64_id by (unfold min_int; lia).
  unfold slice.len; simpl.
  destruct (SetattrValid.Size (SetattrRequest.Valid req)) eqn:HS.
  - (* the size is selected *)
    destruct (Z.ltb_spec (SetattrRequest.Size req) (Z.of_nat (length lv))) as [Hlt | Hge].
    + (* shrink *)
      unfold slice.upto, slice.cap; simpl.
      rewrite bool_decide_eq_true_2 by lia. simpl.
      repeat split; intros; try congruence; try lia;
        try (destruct (SetattrValid.Mode _); congruence);
        try (destruct (SetattrValid.Uid _); congruence);
        try (destruct (SetattrValid.Gid _); congruence);
        try (destruct (SetattrValid.Atime _); congruence).
      apply take_app_le. lia.
    + destruct (Z.gtb_spec (SetattrRequest.Size req) (Z.of_nat (length lv))) as [Hgt | Heq].
      * destruct (Z.gtb_spec (SetattrRequest.Size req) MAX_FILE_SIZE) as [Hbig | Hok].
        -- (* past the maximum *)
           simpl.
           repeat split; intros; try congruence; try lia;
             try (destruct (SetattrValid.Mode _); congruence);
             try (destruct (SetattrValid.Uid _); congruence);
             try (destruct (SetattrValid.Gid _); congruence);
             try (destruct (SetattrValid.Atime _); congruence).
        -- (* grow *)
           rewrite slice_make_ok by lia. simpl.
           repeat split; intros; try congruence; try lia;
             try (destruct (SetattrValid.Mode _); congruence);
             try (destruct (SetattrValid.Uid _); congruence);
             try (destruct (SetattrValid.Gid _); congruence);
             try (destruct (SetattrValid.Atime _); congruence).
           apply slice_copy_into_zeros. lia.
      * (* same length *)
        simpl.
        repeat split; intros; try congruence; try lia;
          try (destruct (SetattrValid.Mode _); congruence);
          try (destruct (SetattrValid.Uid _); congruence);
          try (destruct (SetattrValid.Gid _); congruence);
          try (destruct (SetattrValid.Atime _); congruence).
  - (* the size is not selected *)
    simpl.
    repeat split; intros; try congruence;
      try (destruct (SetattrValid.Mode _); congruence);
      try (destruct (SetattrValid.Uid _); congruence);
      try (destruct (SetattrValid.Gid _); congruence);
      try (destruct (SetattrValid.Atime _); congruence);
      try (destruct (SetattrValid.Mtime _); congruence).
Qed.

Lemma Setattr_partial_update_witness :
  (File.Setattr (File.mk (Attr.mk 5 3 0 0 0 420 1000 1000) (slice.mk [x01; x02; x03] []))
                (SetattrRequest.mk 8 1 0 0 0 0 0) 77).1
    = Ok (SetattrResponse.mk (Attr.mk 5 1 0 77 0 420 1000 1000))
  /\ slice.live (File.Data
       (File.Setattr (File.mk (Attr.mk 5 3 0 0 0 420 1000 1000) (slice.mk [x01; x02; x03] []))
                     (SetattrRequest.mk 8 1 0 0 0 0 0) 77).2) = [x01].
Proof.
  assert (Hsize : 0 <= SetattrRequest.Size (SetattrRequest.mk 8 1 0 0 0 0 0) <= max_int)
    by (vm_compute; intuition congruence).
  destruct (Setattr_partial_update
              (File.mk (Attr.mk 5 3 0 0 0 420 1000 1000) (slice.mk [x01; x02; x03] []))
              (SetattrRequest.mk 8 1 0 0 0 0 0) 77 Hsize)
    as (_ & _ & _ & _ & _ & _ & Hshrink & _).
  destruct Hshrink as (Hr & Hlive & _); [reflexivity | reflexivity |].
  split; [exact Hr | exact Hlive].
Defined.

(** Where the sentence of C3 on unselected fields fails: the mask selects
    the size alone, the call succeeds, and the modification time, which
    was not selected, is no longer what it was. *)
Lemma Setattr_size_stamps_unselected_mtime :
  SetattrValid.Mtime (SetattrRequest.Valid (SetattrRequest.mk 8 3 0 0 0 0 0)) = false
  /\ File.Setattr (File.mk (Attr.mk 5 3 0 0 0 420 1000 1000) (slice.mk [x01; x02; x03] []))
                  (SetattrRequest.mk 8 3 0 0 0 0 0) 77
     = (Ok (SetattrResponse.mk (Attr.mk 5 3 0 77 0 420 1000 1000)),
        File.mk (Attr.mk 5 3 0 77 0 420 1000 1000) (slice.mk [x01; x02; x03] []))
  /\ Attr.Mtime (File.Attributes
       (File.Setattr (File.mk (Attr.mk 5 3 0 0 0 420 1000 1000) (slice.mk [x01; x02; x03] []))
                     (SetattrRequest.mk 8 3 0 0 0 0 0) 77).2)
     <> Attr.Mtime (Attr.mk 5 3 0 0 0 420 1000 1000).
Proof. vm_compute. repeat split; congruence. Qed.

(** The size check of [Setattr] comes after the assignments of the other
    fields: a request that selects the mode and a size past the maximum is
    rejected with EFBIG, and the file keeps the new mode. *)
Lemma Setattr_rejected_after_mode_update :
  File.Setattr (File.mk (Attr.mk 5 3 0 0 0 420 1000 1000) (slice.mk [x01; x02; x03] []))
               (SetattrRequest.mk 9 (MAX_FILE_SIZE + 1) 0 0 384 0 0) 77
  = (Err EFBIG,
     File.mk (Attr.mk 5 3 0 0 0 384 1000 1000) (slice.mk [x01; x02; x03] [])).
Proof. reflexivity. Qed.

(** ** Dir.Mkdir and Dir.Remove *)

Lemma owner_check (hdr : Header.t) (directory : Dir.t) :
  (owner_matches hdr directory ->
   negb (Header.Uid hdr =? Attr.Uid (Dir.Attributes directory)) = false
   /\ negb (Header.Gid hdr =? Attr.Gid (Dir.Attributes directory)) = false)
  /\ (~ owner_matches hdr directory ->
      negb (Header.Uid hdr =? Attr.Uid (Dir.Attributes directory)) = true
      \/ negb (Header.Uid hdr =? Attr.Uid (Dir.Attributes directory)) = false
         /\ negb (Header.Gid hdr =? Attr.Gid (Dir.Attributes directory)) = true).
Proof.
  unfold owner_matches.
  destruct (Z.eqb_spec (Header.Uid hdr) (Attr.Uid (Dir.Attributes directory))),
    (Z.eqb_spec (Header.Gid hdr) (Attr.Gid (Dir.Attributes directory)));
    simpl; intuition.
Qed.

Section DirOperations.
Variable ValidateName : string -> option Errno.

(** C7. [Mkdir] and [Remove] deny a caller whose uid and gid are not both
    those of the directory's owner: such a call always fails, with EPERM
    (the PermissionDenied kind) once the name has passed the checks that
    come first, and leaves the directory as it was. A caller whose uid and
    gid are the owner's succeeds, for a valid name that is not taken
    ([Mkdir]) or is present ([Remove]), whatever the mode of the directory
    is. The inode counter is below its last value. *)
Theorem Mkdir_Remove_ownership (directory : Dir.t) (hdr : Header.t) (name : string) :
  (forall mode now inodeCounter,
     let req := MkdirRequest.mk hdr name mode in
     (~ owner_matches hdr directory ->
      (exists e, Dir.Mkdir ValidateName directory req now inodeCounter
                 = (Err e, directory, inodeCounter))
      /\ (ValidateName name = None -> Dir.Children directory !! name = None ->
          Dir.Mkdir ValidateName directory req now inodeCounter
          = (Err EPERM, directory, inodeCounter)))
     /\ (owner_matches hdr directory ->
         ValidateName name = None -> Dir.Children directory !! name = None ->
         uint64 (inodeCounter + 1) <> 0 ->
         forall m, exists dir directory',
           Dir.Mkdir ValidateName (with_Mode m directory) req now inodeCounter
           = (Ok dir, directory', uint64 (inodeCounter + 1))
           /\ Dir.Children directory' = <[name := NDir dir]> (Dir.Children directory)))
  /\ (forall now1 now2,
        let req := RemoveRequest.mk hdr name in
        (~ owner_matches hdr directory ->
         (exists e, Dir.Remove ValidateName directory req now1 now2 = (Err e, directory))
         /\ (ValidateName name = None -> is_Some (Dir.Children directory !! name) ->
             Dir.Remove ValidateName directory req now1 now2 = (Err EPERM, directory)))
        /\ (owner_matches hdr directory ->
            ValidateName name = None -> is_Some (Dir.Children directory !! name) ->
            forall m, exists directory',
              Dir.Remove ValidateName (with_Mode m directory) req now1 now2
              = (Ok tt, directory')
              /\ Dir.Children directory' = delete name (Dir.Children directory)))
  /\ kind_of EPERM = PermissionDenied.
Proof.
  destruct (owner_check hdr directory) as [Hyes Hno].
  split; [| split; [| reflexivity]].
  - intros mode now c req. split.
    + intros Hown. specialize (Hno Hown).
      unfold Dir.Mkdir; simpl.
      split.
      * destruct (ValidateName name); [eauto |].
        destruct (Dir.Children directory !! name); [eauto |].
        destruct Hno as [-> | [-> ->]]; eauto.
      * intros -> ->. destruct Hno as [-> | [-> ->]]; reflexivity.
    + intros Hown Hvalid Hfree Hctr m. destruct (Hyes Hown) as [Hu Hg].
      destruct directory as [attrs children cfg].
      unfold Dir.Mkdir, with_Mode, GetInodeAndIncrease; simpl in *.
      rewrite Hvalid, Hfree, Hu, Hg.
      destruct (Z.eqb_spec (uint64 (c + 1)) 0); [contradiction |].
      eexists _, _. split; reflexivity.
  - intros now1 now2 req. split.
    + intros Hown. specialize (Hno Hown).
      unfold Dir.Remove; simpl.
      split.
      * destruct (ValidateName name); [eauto |].
        destruct (Dir.Children directory !! name); [| eauto].
        destruct Hno as [-> | [-> ->]]; eauto.
      * intros -> [child ->]. destruct Hno as [-> | [-> ->]]; reflexivity.
    + intros Hown Hvalid [child Hchild] m. destruct (Hyes Hown) as [Hu Hg].
      destruct directory as [attrs children cfg].
      unfold Dir.Remove, with_Mode; simpl in *.
      rewrite Hvalid, Hchild, Hu, Hg.
      eexists. split; reflexivity.
Qed.

(** C10. The directory [Mkdir] creates has the directory flag and the
    nine permission bits of the requested mode, and nothing else: the
    setuid, setgid and sticky bits of the request are not set on it. *)
Theorem Mkdir_mode (directory : Dir.t) (req : MkdirRequest.t) (now : time_Time)
    (inodeCounter : Z) (dir directory' : Dir.t) (inodeCounter' : Z) :
  Dir.Mkdir ValidateName directory req now inodeCounter
    = (Ok dir, directory', inodeCounter') ->
  Attr.Mode (Dir.Attributes dir) = Z.lor ModeDir (Z.land (MkdirRequest.Mode req) 511)
  /\ Z.testbit (Attr.Mode (Dir.Attributes dir)) ModeSetuid_bit = false
  /\ Z.testbit (Attr.Mode (Dir.Attributes dir)) ModeSetgid_bit = false
  /\ Z.testbit (Attr.Mode (Dir.Attributes dir)) ModeSticky_bit = false
  /\ Dir.Children directory' !! MkdirRequest.Name req = Some (NDir dir).
Proof.
  unfold Dir.Mkdir, GetInodeAndIncrease.
  destruct (ValidateName _); [discriminate |].
  destruct (Dir.Children directory !! _); [discriminate |].
  destruct (negb _); [discriminate |].
  destruct (negb _); [discriminate |].
  destruct (uint64 (inodeCounter + 1) =? 0); [discriminate |].
  intros [= <- <- <-].
  assert (Hmask : Z.land (FileMode_Perm (MkdirRequest.Mode req)) 511
                  = Z.land (MkdirRequest.Mode req) 511).
  { unfold FileMode_Perm, ModePerm. rewrite <- Z.land_assoc. reflexivity. }
  cbn [Dir.Attributes Dir.Children Dir.with_Children Dir.with_Attributes Dir.touch
       Attr.Mode].
  rewrite Hmask.
  split; [reflexivity |].
  unfold ModeSetuid_bit, ModeSetgid_bit, ModeSticky_bit.
  rewrite !Z.lor_spec, !Z.land_spec.
  repeat split; try (rewrite andb_false_r; reflexivity).
  apply lookup_insert_eq.
Qed.

End DirOperations.

Lemma Mkdir_Remove_ownership_witness :
  Dir.Mkdir ValidateName
    (mkDir (Attr.mk 1 0 0 0 0 2147483648 1000 1000) ∅ (XBin25Config.mk "" "" "" "" "" 0 0))
    (MkdirRequest.mk (Header.mk 1000 1001) "a" 493) 77 2
  = (Err EPERM,
     mkDir (Attr.mk 1 0 0 0 0 2147483648 1000 1000) ∅ (XBin25Config.mk "" "" "" "" "" 0 0),
     2).
Proof.
  destruct (Mkdir_Remove_ownership ValidateName
              (mkDir (Attr.mk 1 0 0 0 0 2147483648 1000 1000) ∅
                     (XBin25Config.mk "" "" "" "" "" 0 0))
              (Header.mk 1000 1001) "a") as [Hmkdir _].
  destruct (Hmkdir 493 77 2) as [Hdenied _].
  apply Hdenied.
  - unfold owner_matches; simpl. intros [_ Hgid]. discriminate Hgid.
  - reflexivity.
  - reflexivity.
Defined.

Lemma Mkdir_mode_witness :
  Z.testbit
    (Attr.Mode (Dir.Attributes
       (mkDir (Attr.mk 3 0 77 77 77 2147484141 1000 1000) ∅
              (XBin25Config.mk "" "" "" "" "" 0 0))))
    ModeSetuid_bit = false.
Proof.
  refine (proj1 (proj2
    (Mkdir_mode ValidateName
       (mkDir (Attr.mk 1 0 0 0 0 2147484141 1000 1000) ∅
              (XBin25Config.mk "" "" "" "" "" 0 0))
       (MkdirRequest.mk (Header.mk 1000 1000) "a" 13631981) 77 2
       (mkDir (Attr.mk 3 0 77 77 77 2147484141 1000 1000) ∅
              (XBin25Config.mk "" "" "" "" "" 0 0))
       (mkDir (Attr.mk 1 0 0 77 77 2147484141 1000 1000)
              (<["a" := NDir (mkDir (Attr.mk 3 0 77 77 77 2147484141 1000 1000) ∅
                                    (XBin25Config.mk "" "" "" "" "" 0 0))]> ∅)
              (XBin25Config.mk "" "" "" "" "" 0 0))
       3 _))).
  reflexivity.
Defined.

(** ** filepath.Base and the name test of Rename *)

Lemma until_sep_free l : existsb is_sep (until_sep l) = false.
Proof.
  induction l as [| c l IH]; simpl; [reflexivity |].
  destruct (is_sep c) eqn:Hc; simpl; [reflexivity |]. now rewrite Hc.
Qed.

Lemma existsb_rev {A} (f : A -> bool) l : existsb f (rev l) = existsb f l.
Proof.
  induction l as [| x l IH]; simpl; [reflexivity |].
  rewrite existsb_app, IH. simpl. rewrite orb_false_r. apply orb_comm.
Qed.

Lemma until_sep_id l : existsb is_sep l = false -> until_sep l = l.
Proof.
  induction l as [| c l IH]; simpl; [reflexivity |].
  destruct (is_sep c); simpl; [discriminate |]. intros H. now rewrite IH.
Qed.

Lemma drop_seps_id l : existsb is_sep l = false -> drop_seps l = l.
Proof. destruct l as [| c l]; simpl; [reflexivity |]. now destruct (is_sep c). Qed.

(** The names [filepath.Base] leaves as they are: the non-empty names
    without a separator, and the name ["/"]. *)
Lemma filepath_Base_fixed (name : string) :
  filepath_Base name = name <->
  name <> "" /\ (name = "/" \/ has_sep name = false).
Proof.
  unfold filepath_Base, has_sep. split.
  - destruct (String.eqb_spec name "") as [-> | Hne]; [discriminate |].
    intros HB. split; [assumption |].
    destruct (last_element _) as [| c e] eqn:He; [left; congruence |].
    right. rewrite <- HB, list_ascii_of_string_of_list_ascii, <- He.
    unfold last_element. rewrite existsb_rev. apply until_sep_free.
  - intros [Hne [-> | Hfree]]; [reflexivity |].
    destruct (String.eqb_spec name ""); [contradiction |].
    unfold strip_trailing_seps, last_element.
    rewrite drop_seps_id by now rewrite existsb_rev.
    rewrite !rev_involutive, until_sep_id by now rewrite existsb_rev.
    rewrite rev_involutive.
    destruct (list_ascii_of_string name) eqn:Hl.
    + destruct name; [contradiction | discriminate].
    + rewrite <- Hl. apply string_of_list_ascii_of_string.
Qed.

(** [Rename] lets a name through exactly when it is not empty, neither
    ["."] nor [".."], and either free of separators or the single
    separator ["/"]. *)
Lemma Rename_bad_name_false (name : string) :
  Dir.Rename_bad_name name = false <->
  name <> "" /\ name <> "." /\ name <> ".."
  /\ (name = "/" \/ has_sep name = false).
Proof.
  unfold Dir.Rename_bad_name.
  rewrite !orb_false_iff, negb_false_iff, !String.eqb_neq, String.eqb_eq.
  split.
  - intros [[HB Hdd] Hd]. symmetry in HB. apply filepath_Base_fixed in HB. tauto.
  - intros (Hne & Hd & Hdd & Hsep). repeat split; auto.
    symmetry. apply filepath_Base_fixed. tauto.
Qed.

(** Every name the specification calls invalid is rejected, except
    ["/"]. *)
Lemma Rename_bad_name_true (name : string) :
  name = "" \/ name = "." \/ name = ".." \/ has_sep name = true ->
  name <> "/" ->
  Dir.Rename_bad_name name = true.
Proof.
  intros Hbad Hslash. apply not_false_iff_true. intros Hok.
  apply Rename_bad_name_false in Hok. destruct Hok as (? & ? & ? & [? | Hfree]).
  - contradiction.
  - destruct Hbad as [? | [? | [? | Hsep]]]; try contradiction. congruence.
Qed.

(** ** Dir.Rename *)

(** The errors of [Rename], in the order the checks come. *)
Lemma Rename_errors (σ : gmap ptr Node) (directory newDir : ptr)
    (req : RenameRequest.t) (now : time_Time) (source target : Dir.t) :
  σ !! directory = Some (NDir source) ->
  σ !! newDir = Some (NDir target) ->
  let r := Dir.Rename σ directory req newDir now in
  let hdr := RenameRequest.Header req in
  (Dir.Rename_bad_name (RenameRequest.NewName req) = true
   \/ Dir.Rename_bad_name (RenameRequest.OldName req) = true ->
   r = (Err EINVAL, σ, []))
  /\ (Dir.Rename_bad_name (RenameRequest.NewName req) = false ->
      Dir.Rename_bad_name (RenameRequest.OldName req) = false ->
      (may_write hdr source && may_write hdr target = false ->
       r = (Err EACCES, σ, []))
      /\ (may_write hdr source && may_write hdr target = true ->
          Dir.Children source !! RenameRequest.OldName req = None ->
          r.1 = (Err ENOENT, σ))).
Proof.
  intros Hs Ht r hdr. subst r hdr. unfold Dir.Rename, may_write.
  split.
  - intros [-> | Hold]; [reflexivity |].
    destruct (Dir.Rename_bad_name (RenameRequest.NewName req)); [reflexivity |].
    now rewrite Hold.
  - intros -> ->. rewrite Hs, Ht. split.
    + intros Hperm. apply andb_false_iff in Hperm.
      destruct Hperm as [-> | ->]; simpl; [reflexivity |].
      now rewrite orb_true_r.
    + intros Hperm Hnone. apply andb_true_iff in Hperm. destruct Hperm as [-> ->].
      simpl. rewrite Hnone.
      destruct (_ >? _); reflexivity.
Qed.

(** A successful [Rename]: the child leaves the source under its old name
    and enters the destination under the new one, replacing what was
    there; both directories are stamped; no other object changes. *)
Lemma Rename_success (σ : gmap ptr Node) (directory newDir : ptr)
    (req : RenameRequest.t) (now : time_Time) (source target : Dir.t) (child : Node) :
  σ !! directory = Some (NDir source) ->
  σ !! newDir = Some (NDir target) ->
  Dir.Rename_bad_name (RenameRequest.NewName req) = false ->
  Dir.Rename_bad_name (RenameRequest.OldName req) = false ->
  may_write (RenameRequest.Header req) source
    && may_write (RenameRequest.Header req) target = true ->
  Dir.Children source !! RenameRequest.OldName req = Some child ->
  let old := RenameRequest.OldName req in
  let new := RenameRequest.NewName req in
  (Dir.Rename σ directory req newDir now).1
  = (Ok tt,
     if decide (directory = newDir)
     then <[directory := NDir (renamed_within old new child now source)]> σ
     else <[newDir := NDir (renamed_target new child now target)]>
            (<[directory := NDir (renamed_source old now source)]> σ)).
Proof.
  intros Hs Ht Hnew Hold Hperm Hchild old new. subst old new.
  unfold Dir.Rename, may_write in *. rewrite Hnew, Hold, Ht, Hs.
  apply andb_true_iff in Hperm. destruct Hperm as [-> ->]. simpl.
  rewrite Hchild.
  assert (Hres : forall first second : ptr,
    (let '(first, second) := (first, second) in
     (Ok tt : Outcome unit,
      Dir.modify (Dir.touch now now) newDir
        (Dir.modify (Dir.touch now now) directory
           (Dir.modify (fun d => Dir.with_Children
                          (<[RenameRequest.NewName req := child]> (Dir.Children d)) d) newDir
              (Dir.modify (fun d => Dir.with_Children
                             (delete (RenameRequest.OldName req) (Dir.Children d)) d) directory
                 (Dir.modify (fun d => Dir.with_Children
                                (delete (RenameRequest.NewName req) (Dir.Children d)) d)
                    newDir σ)))),
      (Lock first :: (if decide (first = second) then [] else [Lock second]))
        ++ (if decide (first = second) then [] else [Unlock second]) ++ [Unlock first])).1
    = (Ok tt,
       if decide (directory = newDir)
       then <[directory := NDir (renamed_within (RenameRequest.OldName req)
                                   (RenameRequest.NewName req) child now source)]> σ
       else <[newDir := NDir (renamed_target (RenameRequest.NewName req) child now target)]>
              (<[directory := NDir (renamed_source (RenameRequest.OldName req) now source)]> σ))).
  { intros first second. simpl. f_equal.
    unfold Dir.modify. apply map_eq. intros p.
    destruct (decide (directory = newDir)) as [<- | Hne].
    - assert (source = target) as <- by congruence.
      destruct (decide (p = directory)) as [-> | Hp].
      + rewrite lookup_insert_eq.
        repeat (rewrite lookup_alter_eq). rewrite Hs. reflexivity.
      + rewrite lookup_insert_ne by congruence.
        repeat (rewrite lookup_alter_ne by congruence). reflexivity.
    - destruct (decide (p = newDir)) as [-> | Hpn].
      + rewrite lookup_insert_eq.
        rewrite lookup_alter_eq, lookup_alter_ne by congruence.
        rewrite lookup_alter_eq, lookup_alter_ne by congruence.
        rewrite lookup_alter_eq, Ht. simpl.
        unfold renamed_target. do 2 f_equal.
        destruct target; simpl. unfold Dir.with_Children; simpl.
        now rewrite insert_delete_eq.
      + rewrite lookup_insert_ne by congruence.
        rewrite lookup_alter_ne by congruence.
        destruct (decide (p = directory)) as [-> | Hpd].
        * rewrite lookup_insert_eq.
          rewrite lookup_alter_eq, lookup_alter_ne by congruence.
          rewrite lookup_alter_eq, lookup_alter_ne by congruence.
          rewrite Hs. reflexivity.
        * rewrite lookup_insert_ne by congruence.
          repeat (rewrite lookup_alter_ne by congruence). reflexivity. }
  destruct (_ >? _); apply Hres.
Qed.

(** C8, where the code departs from it. The new name ["/"] contains a
    separator, yet [Rename] does not fail with EINVAL: [filepath.Base]
    maps ["/"] to itself, the name passes the test, the call succeeds and
    the file is entered under the name ["/"]. *)
Theorem Rename_accepts_slash :
  has_sep "/" = true
  /\ Dir.Rename
       {[ 1%positive :=
            NDir (mkDir (Attr.mk 1 0 0 0 0 2147484141 1000 1000)
                        {[ "a" := NFile (File.mk (Attr.mk 3 0 0 0 0 420 1000 1000)
                                                 slice.empty) ]}
                        (XBin25Config.mk "" "" "" "" "" 0 0)) ]}
       1%positive
       (RenameRequest.mk (Header.mk 1000 1000) "a" "/")
       1%positive 77
     = (Ok tt,
        {[ 1%positive :=
             NDir (mkDir (Attr.mk 1 0 0 77 77 2147484141 1000 1000)
                         {[ "/" := NFile (File.mk (Attr.mk 3 0 0 0 0 420 1000 1000)
                                                  slice.empty) ]}
                         (XBin25Config.mk "" "" "" "" "" 0 0)) ]},
        [Lock 1%positive; Unlock 1%positive]).
Proof. split; reflexivity. Qed.

(** ** Lock order and deadlock *)







Lemma step_pending (pool pool' : list Thread) :
  step pool pool' -> pending pool = S (pending pool').
Proof.
  intros [pool0 i t t' Hi Hts]. unfold pending.
  apply list_elem_of_split_length in Hi. destruct Hi as (l1 & l2 & -> & ->).
  rewrite insert_app_r_alt by lia. rewrite Nat.sub_diag. simpl.
  rewrite !sum_list_with_app. simpl.
  destruct Hts; simpl; lia.
Qed.







(** Without the order the two calls can block each other: the source
    locked first by each, the two renames reach a state where each holds
    the lock the other waits for. *)
Lemma unordered_locks_deadlock :
  exists pool,
    rtc step
      (spawn [[Lock 1%positive; Lock 2%positive; Unlock 2%positive; Unlock 1%positive];
              [Lock 2%positive; Lock 1%positive; Unlock 1%positive; Unlock 2%positive]])
      pool
    /\ deadlocked pool.
Proof.
  exists [([Lock 2%positive; Unlock 2%positive; Unlock 1%positive], [1%positive]);
          ([Lock 1%positive; Unlock 1%positive; Unlock 2%positive], [2%positive])].
  split.
  - eapply rtc_l.
    { apply (step_thread
               (spawn [[Lock 1%positive; Lock 2%positive; Unlock 2%positive; Unlock 1%positive];
                       [Lock 2%positive; Lock 1%positive; Unlock 1%positive; Unlock 2%positive]])
               0%nat
               ([Lock 1%positive; Lock 2%positive; Unlock 2%positive; Unlock 1%positive], [])
               ([Lock 2%positive; Unlock 2%positive; Unlock 1%positive], [1%positive]));
        [reflexivity |].
      constructor. intros t Ht. unfold spawn in Ht. simpl in Ht.
      repeat (apply elem_of_cons in Ht; destruct Ht as [-> | Ht]);
        [apply not_elem_of_nil | apply not_elem_of_nil | inversion Ht]. }
    eapply rtc_l; [| apply rtc_refl].
    apply (step_thread
             [([Lock 2%positive; Unlock 2%positive; Unlock 1%positive], [1%positive]);
              ([Lock 2%positive; Lock 1%positive; Unlock 1%positive; Unlock 2%positive], [])]
             1%nat
             ([Lock 2%positive; Lock 1%positive; Unlock 1%positive; Unlock 2%positive], [])
             ([Lock 1%positive; Unlock 1%positive; Unlock 2%positive], [2%positive]));
      [reflexivity |].
    constructor. intros t Ht.
    repeat (apply elem_of_cons in Ht; destruct Ht as [-> | Ht]);
      [| apply not_elem_of_nil | inversion Ht].
    simpl. intros Hin. apply list_elem_of_singleton in Hin. discriminate Hin.
  - split.
    + intros Hfin.
      assert (Hnil : ([Lock 2%positive; Unlock 2%positive; Unlock 1%positive],
                      [1%positive]).1 = []) by (apply Hfin; left).
      discriminate Hnil.
    + intros [pool' Hstep]. inversion Hstep as [pool0 i t t' Hi Hts]; subst.
      destruct i as [| [| i]]; simpl in Hi; try discriminate.
      * injection Hi as <-. inversion Hts as [p rest held Hfree |]; subst.
        apply (Hfree ([Lock 1%positive; Unlock 1%positive; Unlock 2%positive],
                      [2%positive])); [right; left | left].
      * injection Hi as <-. inversion Hts as [p rest held Hfree |]; subst.
        apply (Hfree ([Lock 2%positive; Unlock 2%positive; Unlock 1%positive],
                      [1%positive])); [left | left].
Qed.

(** ** The snapshot codec *)

Lemma map_fold_max_le (m : gmap string nat) (k : string) (n : nat) :
  m !! k = Some n -> (n <= map_fold (fun _ n acc => Nat.max n acc) 0 m)%nat.
Proof.
  revert k n.
  apply (map_fold_weak_ind
           (fun r (m : gmap string nat) => forall k n, m !! k = Some n -> (n <= r)%nat)).
  - intros k n Hk. rewrite lookup_empty in Hk. discriminate.
  - intros i x m' r Hi IH k n Hk.
    destruct (decide (i = k)) as [-> | Hne].
    + rewrite lookup_insert_eq in Hk. injection Hk as ->. lia.
    + rewrite lookup_insert_ne in Hk by assumption. specialize (IH k n Hk). lia.
Qed.

Lemma child_depth (attributes : Attr.t) (children : gmap string Node)
    (cfg : XBin25Config.t) (name : string) (child : Node) :
  children !! name = Some child ->
  (Node_depth child < Dir_depth (mkDir attributes children cfg))%nat.
Proof.
  intros Hchild. simpl. apply Nat.lt_succ_r.
  apply (map_fold_max_le _ name). rewrite lookup_fmap, Hchild. reflexivity.
Qed.

Lemma gather_Some {A} (m : gmap string (option (option A))) :
  (forall k r, m !! k = Some r -> is_Some r) ->
  gather m = Some (omap (fun r => default None r) m).
Proof.
  intros Hall. unfold gather.
  destruct (decide (map_Forall (fun _ r => is_Some r) m)) as [| Hno];
    [reflexivity |].
  exfalso. apply Hno. intros k r Hk. eauto.
Qed.

(** What the decoder makes of any mirror that agrees, up to spare
    capacity, with the mirror of a node: a node with the same content. *)
Lemma Deserialize_Serialize_depth (cfg : XBin25Config.t) (n : nat) :
  (forall node sn,
     (Node_depth node < n)%nat ->
     SerializableNode_clip sn = SerializableNode_clip (SerializeNode node) ->
     exists node', DeserializeNode cfg sn = Some (Some node')
                   /\ Node_content node' = Node_content node)
  /\ (forall d sd,
        (Dir_depth d < S n)%nat ->
        SerializableDir_clip sd = SerializableDir_clip (SerializeDir d) ->
        exists d', DeserializeDir cfg sd = Some d'
                   /\ Dir_content d' = Dir_content d).
Proof.
  induction n as [| n [IHnode IHdir]].
  - assert (Hnode : forall node sn,
              (Node_depth node < 0)%nat ->
              SerializableNode_clip sn = SerializableNode_clip (SerializeNode node) ->
              exists node', DeserializeNode cfg sn = Some (Some node')
                            /\ Node_content node' = Node_content node)
      by (intros; lia).
    split; [exact Hnode |].
    intros [attributes children c0] sd Hdepth. simpl in Hdepth. lia.
  - assert (Hnode : forall node sn,
              (Node_depth node < S n)%nat ->
              SerializableNode_clip sn = SerializableNode_clip (SerializeNode node) ->
              exists node', DeserializeNode cfg sn = Some (Some node')
                            /\ Node_content node' = Node_content node).
    { intros [d | f] [type_ dir file] Hdepth Hclip; simpl in Hclip.
      - injection Hclip as -> Hdir Hfile.
        destruct dir as [sd |]; [| discriminate]. injection Hdir as Hdir.
        destruct (IHdir d sd Hdepth Hdir) as (d' & Hd' & Hcontent).
        exists (NDir d'). simpl. rewrite Hd'. split; [reflexivity | exact Hcontent].
      - injection Hclip as -> Hdir Hfile.
        destruct file as [[attrs data] |]; [| discriminate].
        injection Hfile as -> Hdata. simpl.
        eexists. split; [reflexivity |]. simpl. congruence. }
    split; [exact Hnode |].
    intros [attributes children c0] [attributes' children'] Hdepth Hclip.
    simpl in Hclip. injection Hclip as -> Hch.
    assert (Hkey : forall k,
              match children !! k with
              | Some c => exists sn node',
                  children' !! k = Some sn
                  /\ DeserializeNode cfg sn = Some (Some node')
                  /\ Node_content node' = Node_content c
              | None => children' !! k = None
              end).
    { intros k.
      assert (Hk : (SerializableNode_clip <$> children') !! k
                   = (SerializableNode_clip <$> (SerializeNode <$> children)) !! k)
        by now rewrite Hch.
      rewrite !lookup_fmap in Hk.
      destruct (children !! k) as [c |] eqn:Hc; simpl in Hk.
      - destruct (children' !! k) as [sn |]; [| discriminate].
        injection Hk as Hk.
        destruct (Hnode c sn) as (node' & Hn' & Hcontent); [| exact Hk |].
        + pose proof (child_depth attributes children c0 k c Hc). lia.
        + eauto.
      - destruct (children' !! k); [discriminate | reflexivity]. }
    simpl. rewrite gather_Some.
    + eexists. split; [reflexivity |]. simpl. f_equal.
      apply map_eq. intros k. rewrite !lookup_fmap, lookup_omap, lookup_fmap.
      specialize (Hkey k). destruct (children !! k) as [c |].
      * destruct Hkey as (sn & node' & -> & Hn' & Hcontent). simpl.
        rewrite Hn'. simpl. now rewrite Hcontent.
      * now rewrite Hkey.
    + intros k r Hk. rewrite lookup_fmap in Hk.
      specialize (Hkey k). destruct (children !! k) as [c |].
      * destruct Hkey as (sn & node' & Hsn & Hn' & _).
        rewrite Hsn in Hk. simpl in Hk. injection Hk as <-. rewrite Hn'. eauto.
      * rewrite Hkey in Hk. discriminate.
Qed.

(** [DeserializeDir] undoes [SerializeDir]: decoding a mirror that agrees
    with the mirror of a directory up to spare capacity returns a
    directory, with the same child names at every level, the same
    attributes (inodes as they were) and the same file bytes. *)
Lemma DeserializeDir_SerializeDir (cfg : XBin25Config.t) (d : Dir.t)
    (sd : SerializableDir) :
  SerializableDir_clip sd = SerializableDir_clip (SerializeDir d) ->
  exists d', DeserializeDir cfg sd = Some d' /\ Dir_content d' = Dir_content d.
Proof.
  intros Hclip.
  destruct (Deserialize_Serialize_depth cfg (Dir_depth d)) as [_ Hdir].
  apply Hdir; [lia | assumption].
Qed.

(** ** SaveData and LoadData *)

Section PersistenceProperties.
Context `{External}.

(** C9. When the envelope read back from the image carries a version
    other than [X25FS_VERSION], [LoadData] fails with the version error;
    the inode counter keeps its value and no tree is returned, whatever
    the root of the envelope is. *)
Theorem LoadData_version_mismatch (cfg : XBin25Config.t) (diskFile : string)
    (inodeCounter : Z) (disk : Disk) (encrypted msgpackBytes : Blob)
    (sxfs : SerializableX25fs.t) :
  os_ReadFile disk diskFile = Some encrypted ->
  xbin25_Unmarshall cfg encrypted = Some (AnyBytes msgpackBytes) ->
  msgpack_Unmarshal msgpackBytes = Some sxfs ->
  SerializableX25fs.Version sxfs <> X25FS_VERSION ->
  LoadData cfg diskFile inodeCounter disk
  = (Err (unmatched_version X25FS_VERSION (SerializableX25fs.Version sxfs)),
     inodeCounter).
Proof.
  intros Hread Hdec Hunpack Hversion. unfold LoadData.
  rewrite Hread, Hdec, Hunpack.
  destruct (Z.eqb_spec (SerializableX25fs.Version sxfs) X25FS_VERSION);
    [contradiction | reflexivity].
Qed.

(** C1. Loading the image a save has written gives back the tree that
    was saved: the same child names at every directory, the same
    attributes of every node, inodes included, and the same bytes in every
    file; the inode counter is the saved one, and no inode is allocated on
    the way. The encryption provider, the codec and the file system are
    taken by their contracts. *)
Theorem LoadData_SaveData (xfs : X25fs.t) (cfg : XBin25Config.t) (diskFile : string)
    (inodeCounter inodeCounter0 : Z) (disk disk' : Disk) :
  file_reads_back -> provider_decrypts -> codec_decodes ->
  SaveData xfs cfg diskFile inodeCounter disk = (None, disk') ->
  exists xfs',
    LoadData cfg diskFile inodeCounter0 disk' = (Ok xfs', inodeCounter)
    /\ Dir_content (X25fs.RootDir xfs') = Dir_content (X25fs.RootDir xfs).
Proof.
  intros Hfs Hprov Hcodec. unfold SaveData, CurrentInodeCounter.
  destruct (msgpack_Marshal _) as [buf |] eqn:Hbuf; [| discriminate].
  destruct (xbin25_Marshall cfg buf) as [encrypted |] eqn:Henc; [| discriminate].
  destruct (renameio_WriteFile disk diskFile encrypted) as [written |] eqn:Hw;
    [| discriminate].
  intros [= <-].
  apply Hfs in Hw. apply Hprov in Henc.
  apply Hcodec in Hbuf. destruct Hbuf as ([version root counter] & Hdec & Hclip).
  unfold SerializableX25fs_clip in Hclip. simpl in Hclip.
  injection Hclip as -> Hroot ->.
  destruct root as [sd |]; [| discriminate]. simpl in Hroot. injection Hroot as Hroot.
  destruct (DeserializeDir_SerializeDir cfg (X25fs.RootDir xfs) sd Hroot)
    as (d' & Hd' & Hcontent).
  exists (X25fs.mk d'). unfold LoadData, LoadInodeCounter.
  rewrite Hw, Henc, Hdec. simpl. rewrite Hd'. split; [reflexivity | exact Hcontent].
Qed.

End PersistenceProperties.

Lemma in_memory_contracts :
  @file_reads_back in_memory /\ @provider_decrypts in_memory
  /\ @codec_decodes in_memory.
Proof.
  split; [| split].
  - intros disk diskFile data disk' [= <-]. apply lookup_insert_eq.
  - intros cfg plain encrypted [= <-]. reflexivity.
  - intros sxfs buf [= <-]. exists sxfs. split; reflexivity.
Qed.

Lemma LoadData_version_mismatch_witness :
  @LoadData in_memory (XBin25Config.mk "" "" "" "" "" 0 0) "data.x25disk" 2
    {[ "data.x25disk" := SerializableX25fs.mk 9999 None 7 ]}
  = (Err (unmatched_version X25FS_VERSION 9999), 2).
Proof.
  apply (@LoadData_version_mismatch in_memory
           (XBin25Config.mk "" "" "" "" "" 0 0) "data.x25disk" 2
           {[ "data.x25disk" := SerializableX25fs.mk 9999 None 7 ]}
           (SerializableX25fs.mk 9999 None 7) (SerializableX25fs.mk 9999 None 7)
           (SerializableX25fs.mk 9999 None 7)).
  - reflexivity.
  - reflexivity.
  - reflexivity.
  - vm_compute. discriminate.
Defined.

Lemma LoadData_SaveData_witness :
  exists xfs',
    @LoadData in_memory (XBin25Config.mk "" "" "" "" "" 0 0) "data.x25disk" 2
      {[ "data.x25disk" :=
           SerializableX25fs.mk X25FS_VERSION
             (Some (SerializeDir
                (mkDir (Attr.mk 1 0 0 0 0 2147484141 1000 1000)
                   {[ "a" := NDir (mkDir (Attr.mk 3 0 5 5 5 2147484141 1000 1000)
                                 {[ "b.txt" := NFile (File.mk (Attr.mk 4 2 6 7 6 420 1000 1000)
                                                        (slice.mk [x68; x69] [x00; x00])) ]}
                                 (XBin25Config.mk "c" "k" "" "" "" 0 0)) ]}
                   (XBin25Config.mk "c" "k" "" "" "" 0 0))))
             4 ]}
    = (Ok xfs', 4)
    /\ Dir_content (X25fs.RootDir xfs')
       = Dir_content
           (mkDir (Attr.mk 1 0 0 0 0 2147484141 1000 1000)
              {[ "a" := NDir (mkDir (Attr.mk 3 0 5 5 5 2147484141 1000 1000)
                            {[ "b.txt" := NFile (File.mk (Attr.mk 4 2 6 7 6 420 1000 1000)
                                                   (slice.mk [x68; x69] [x00; x00])) ]}
                            (XBin25Config.mk "c" "k" "" "" "" 0 0)) ]}
              (XBin25Config.mk "c" "k" "" "" "" 0 0)).
Proof.
  destruct in_memory_contracts as (Hfs & Hprov & Hcodec).
  apply (@LoadData_SaveData in_memory
           (X25fs.mk
              (mkDir (Attr.mk 1 0 0 0 0 2147484141 1000 1000)
                 {[ "a" := NDir (mkDir (Attr.mk 3 0 5 5 5 2147484141 1000 1000)
                               {[ "b.txt" := NFile (File.mk (Attr.mk 4 2 6 7 6 420 1000 1000)
                                                      (slice.mk [x68; x69] [x00; x00])) ]}
                               (XBin25Config.mk "c" "k" "" "" "" 0 0)) ]}
                 (XBin25Config.mk "c" "k" "" "" "" 0 0)))
           (XBin25Config.mk "" "" "" "" "" 0 0) "data.x25disk" 4 2 ∅ _ Hfs Hprov Hcodec).
  reflexivity.
Defined.

(** * Further properties of the code *)

(** ** file.go: the buffer after a write *)

(** The file a write within the size cap leaves, in full. *)
Lemma Write_result (attrs : Attr.t) (live spare data : list byte) (off : Z)
    (now : time_Time) :
  0 <= off ->
  off + Z.of_nat (length data) <= MAX_FILE_SIZE ->
  let n := Z.of_nat (length data) in
  let len := Z.of_nat (length live) in
  let live' :=
    take (Z.to_nat off) (live ++ replicate (Z.to_nat off - length live) x00)
      ++ data ++ drop (Z.to_nat off + length data) live in
  let spare' :=
    if off + n >? len
    then replicate (Z.to_nat (Write_capacity len (off + n) - (off + n))) x00
    else spare in
  File.Write (File.mk attrs (slice.mk live spare)) (WriteRequest.mk off data) now
  = (Ok (WriteResponse.mk n),
     File.mk (Attr.with_Mtime now (Attr.with_Size (Z.of_nat (length live')) attrs))
             (slice.mk live' spare'))
  /\ Z.of_nat (length live') = Z.max len (off + n).
Proof.
  intros Hoff Hcap n len live' spare'. subst n len.
  assert (HM : MAX_FILE_SIZE = 536870912) by reflexivity.
  unfold File.Write; simpl.
  rewrite uint64_offset_plus by (unfold min_int, max_int; lia).
  destruct (Z.gtb_spec (off + Z.of_nat (length data)) MAX_FILE_SIZE) as [? | _];
    [lia |].
  unfold slice.len; simpl. subst spare'.
  destruct (Z.gtb_spec (off + Z.of_nat (length data)) (Z.of_nat (length live)))
    as [Hgrow | Hfit].
  - fold (Write_capacity (Z.of_nat (length live)) (off + Z.of_nat (length data))).
    assert (Hc : off + Z.of_nat (length data)
                 <= Write_capacity (Z.of_nat (length live))
                                   (off + Z.of_nat (length data))).
    { unfold Write_capacity.
      destruct (Z.ltb_spec (off + Z.of_nat (length data))
                           (uint64 (Z.of_nat (length live) * 2)));
        match goal with |- _ <= (if ?c >? _ then _ else _) =>
          destruct (Z.gtb_spec c MAX_FILE_SIZE) end; lia. }
    rewrite slice_make_ok by lia.
    unfold slice.copy; simpl.
    rewrite slice_copy_into_zeros by lia.
    set (grown := live ++ replicate (Z.to_nat (off + Z.of_nat (length data))
                                     - length live) x00).
    assert (Hlen : length grown = Z.to_nat (off + Z.of_nat (length data))).
    { subst grown. rewrite length_app, length_replicate. lia. }
    unfold slice.sub, slice.len, slice.cap; simpl.
    rewrite bool_decide_eq_true_2 by (rewrite Hlen; lia).
    unfold slice.copy_at, File.with_Attributes, File.with_Data, slice.len; simpl.
    rewrite Nat.min_r by lia. rewrite firstn_all.
    assert (Hlive : take (Z.to_nat off) grown ++ data
                      ++ drop (Z.to_nat off + length data) grown = live').
    { subst live' grown. f_equal; [| f_equal].
      - rewrite !take_app, !take_replicate. f_equal. f_equal. lia.
      - rewrite !drop_ge; [reflexivity | lia |].
        rewrite length_app, length_replicate. lia. }
    rewrite Hlive. split; [reflexivity |].
    rewrite <- Hlive, !length_app, length_take, length_drop, Hlen. lia.
  - rewrite int64_id by (unfold min_int, max_int; lia).
    destruct (Z.gtb_spec (off + Z.of_nat (length data)) (Z.of_nat (length live)));
      [lia |].
    unfold slice.sub, slice.len, slice.cap; simpl.
    rewrite bool_decide_eq_true_2 by lia.
    unfold slice.copy_at, File.with_Attributes, File.with_Data, slice.len; simpl.
    rewrite Nat.min_r by lia. rewrite firstn_all.
    assert (Hlive : take (Z.to_nat off) live ++ data
                      ++ drop (Z.to_nat off + length data) live = live').
    { subst live'. f_equal.
      replace (Z.to_nat off - length live)%nat with 0%nat by lia.
      simpl. now rewrite app_nil_r. }
    rewrite Hlive. split; [reflexivity |].
    rewrite <- Hlive, !length_app, length_take, length_drop. lia.
Qed.

(** X1. After a write within the size cap the buffer is as long as the
    larger of its old length and the end offset; it holds the written
    bytes at the offset; every other byte below the old length keeps its
    value; and the bytes between the old length and the offset, if the
    write starts past the end, are zero. *)
Theorem Write_bytes (file : File.t) (req : WriteRequest.t) (now : time_Time) :
  0 <= WriteRequest.Offset req ->
  WriteRequest.Offset req + Z.of_nat (length (WriteRequest.Data req)) <= MAX_FILE_SIZE ->
  let off := Z.to_nat (WriteRequest.Offset req) in
  let data := WriteRequest.Data req in
  let live := slice.live (File.Data file) in
  let live' := slice.live (File.Data (File.Write file req now).2) in
  length live' = Nat.max (length live) (off + length data)
  /\ (forall i, (i < length data)%nat -> live' !! (off + i)%nat = data !! i)
  /\ (forall i, (i < length live)%nat -> (i < off \/ off + length data <= i)%nat ->
                live' !! i = live !! i)
  /\ (forall i, (length live <= i < off)%nat -> live' !! i = Some x00).
Proof.
  destruct file as [attrs [live spare]], req as [off data]; simpl.
  intros Hoff Hcap.
  destruct (Write_result attrs live spare data off now Hoff Hcap) as [-> Hlen].
  cbv zeta in Hlen. simpl.
  set (hole := replicate (Z.to_nat off - length live) x00) in *.
  assert (Htake : length (take (Z.to_nat off) (live ++ hole)) = Z.to_nat off).
  { rewrite length_take, length_app. subst hole. rewrite length_replicate. lia. }
  split; [lia |]. split; [| split].
  - intros i Hi. rewrite lookup_app_r by lia.
    rewrite Htake. replace (Z.to_nat off + i - Z.to_nat off)%nat with i by lia.
    now rewrite lookup_app_l.
  - intros i Hi [Hbefore | Hafter].
    + rewrite lookup_app_l by lia. rewrite lookup_take_lt by lia.
      now rewrite lookup_app_l.
    + rewrite lookup_app_r by lia. rewrite lookup_app_r by lia.
      rewrite lookup_drop. f_equal. lia.
  - intros i Hi. rewrite lookup_app_l by lia. rewrite lookup_take_lt by lia.
    rewrite lookup_app_r by lia. subst hole. apply lookup_replicate_2. lia.
Qed.

Lemma Write_bytes_witness :
  slice.live (File.Data
    (File.Write (File.mk (Attr.mk 5 2 0 0 0 420 1000 1000) (slice.mk [x01; x02] []))
                (WriteRequest.mk 4 [x0a; x0b]) 77).2) !! 3%nat = Some x00.
Proof.
  refine (proj2 (proj2 (proj2
    (Write_bytes (File.mk (Attr.mk 5 2 0 0 0 420 1000 1000) (slice.mk [x01; x02] []))
                 (WriteRequest.mk 4 [x0a; x0b]) 77 _ _))) 3%nat _).
  - vm_compute. congruence.
  - vm_compute. congruence.
  - simpl. lia.
Defined.

(** X2. A write that ends within the buffer keeps the backing array: the
    length and the spare capacity are what they were. A write that ends
    past it allocates a buffer whose capacity is the larger of the end
    offset and twice the old length, capped at the maximum file size. *)
Theorem Write_capacity_policy (file : File.t) (req : WriteRequest.t) (now : time_Time) :
  0 <= WriteRequest.Offset req ->
  WriteRequest.Offset req + Z.of_nat (length (WriteRequest.Data req)) <= MAX_FILE_SIZE ->
  slice.len (File.Data file) <= max_int ->
  let endOffset := WriteRequest.Offset req + Z.of_nat (length (WriteRequest.Data req)) in
  let data' := File.Data (File.Write file req now).2 in
  (endOffset <= slice.len (File.Data file) ->
   slice.len data' = slice.len (File.Data file)
   /\ slice.spare data' = slice.spare (File.Data file))
  /\ (slice.len (File.Data file) < endOffset ->
      slice.len data' = endOffset
      /\ slice.cap data'
         = Z.min (Z.max endOffset (2 * slice.len (File.Data file))) MAX_FILE_SIZE).
Proof.
  destruct file as [attrs [live spare]], req as [off data]; simpl.
  intros Hoff Hcap Hint.
  destruct (Write_result attrs live spare data off now Hoff Hcap) as [-> Hlen].
  unfold slice.len, slice.cap in *; simpl in *. split.
  - intros Hfit.
    destruct (Z.gtb_spec (off + Z.of_nat (length data)) (Z.of_nat (length live)));
      [lia |].
    split; [lia | reflexivity].
  - intros Hgrow.
    destruct (Z.gtb_spec (off + Z.of_nat (length data)) (Z.of_nat (length live)));
      [| lia].
    split; [lia |].
    rewrite Nat2Z.inj_add, Hlen, length_replicate.
    assert (HM : MAX_FILE_SIZE = 536870912) by reflexivity.
    unfold Write_capacity, max_int in *.
    rewrite (uint64_small (Z.of_nat (length live) * 2)) by lia.
    destruct (Z.ltb_spec (off + Z.of_nat (length data)) (Z.of_nat (length live) * 2));
      match goal with |- context [if ?c >? _ then _ else _] =>
        destruct (Z.gtb_spec c MAX_FILE_SIZE) end; lia.
Qed.

Lemma Write_capacity_policy_witness :
  slice.cap (File.Data
    (File.Write (File.mk (Attr.mk 5 3 0 0 0 420 1000 1000) (slice.mk [x01; x02; x03] []))
                (WriteRequest.mk 3 [x0a]) 77).2) = 6.
Proof.
  refine (proj2 (proj2
    (Write_capacity_policy
       (File.mk (Attr.mk 5 3 0 0 0 420 1000 1000) (slice.mk [x01; x02; x03] []))
       (WriteRequest.mk 3 [x0a]) 77 _ _ _) _)).
  - vm_compute. congruence.
  - vm_compute. congruence.
  - vm_compute. congruence.
  - vm_compute. reflexivity.
Defined.

(** X3. [Write] keeps the invariant of a file, whether it succeeds or
    fails with EFBIG, and does not panic: afterwards the size attribute is
    still the length of the buffer, and the buffer is still within the
    maximum file size. *)
Theorem Write_keeps_File_ok (file : File.t) (req : WriteRequest.t) (now : time_Time) :
  0 <= WriteRequest.Offset req <= max_int ->
  Z.of_nat (length (WriteRequest.Data req)) <= max_int ->
  File_ok file ->
  File_ok (File.Write file req now).2 /\ (File.Write file req now).1 <> Panic.
Proof.
  destruct file as [attrs [live spare]], req as [off data]; simpl.
  intros Hoff Hn Hok.
  destruct (Z_le_gt_dec (off + Z.of_nat (length data)) MAX_FILE_SIZE) as [Hcap | Hbig].
  - destruct (Write_result attrs live spare data off now (proj1 Hoff) Hcap)
      as [-> Hlen].
    cbv zeta in Hlen. destruct Hok as [_ Hmax].
    unfold File_ok, slice.len in *; simpl in *.
    split; [| discriminate]. split; [reflexivity | lia].
  - unfold File.Write; simpl.
    rewrite uint64_offset_plus by (unfold min_int, max_int in *; lia).
    destruct (Z.gtb_spec (off + Z.of_nat (length data)) MAX_FILE_SIZE); [| lia].
    simpl. split; [exact Hok | discriminate].
Qed.

Lemma Write_keeps_File_ok_witness :
  File_ok (File.Write (File.mk (Attr.mk 5 3 0 0 0 420 1000 1000)
                               (slice.mk [x01; x02; x03] []))
                      (WriteRequest.mk MAX_FILE_SIZE [x0a]) 77).2.
Proof.
  refine (proj1
    (Write_keeps_File_ok
       (File.mk (Attr.mk 5 3 0 0 0 420 1000 1000) (slice.mk [x01; x02; x03] []))
       (WriteRequest.mk MAX_FILE_SIZE [x0a]) 77 _ _ _)).
  - vm_compute. intuition congruence.
  - vm_compute. congruence.
  - split; vm_compute; congruence.
Defined.

(** ** file.go: changes of size *)

(** The file [Setattr] leaves when the mask selects a size that the int
    conversion keeps and that is not a growth past the maximum. *)
Lemma Setattr_size_result (file : File.t) (req : SetattrRequest.t) (now : time_Time) :
  SetattrValid.Size (SetattrRequest.Valid req) = true ->
  0 <= SetattrRequest.Size req <= max_int ->
  SetattrRequest.Size req <= Z.max (slice.len (File.Data file)) MAX_FILE_SIZE ->
  let size := SetattrRequest.Size req in
  let live := slice.live (File.Data file) in
  let file' := (File.Setattr file req now).2 in
  (File.Setattr file req now).1 = Ok (SetattrResponse.mk (File.Attributes file'))
  /\ slice.live (File.Data file')
     = take (Z.to_nat size) live ++ replicate (Z.to_nat size - length live) x00
  /\ Attr.Size (File.Attributes file') = size
  /\ Attr.Mtime (File.Attributes file') = now.
Proof.
  intros HS Hsize Hmax. cbv zeta. rewrite Setattr_unfold. cbv zeta. rewrite HS.
  destruct file as [attrs [live spare]].
  unfold Setattr_fields, slice.len in *; simpl in *.
  rewrite int64_id by (unfold min_int; lia).
  destruct (Z.ltb_spec (SetattrRequest.Size req) (Z.of_nat (length live))) as [Hlt | Hge].
  - unfold slice.upto, slice.cap; simpl.
    rewrite bool_decide_eq_true_2 by lia. simpl.
    repeat split.
    replace (Z.to_nat (SetattrRequest.Size req) - length live)%nat with 0%nat by lia.
    simpl. rewrite app_nil_r. apply take_app_le. lia.
  - destruct (Z.gtb_spec (SetattrRequest.Size req) (Z.of_nat (length live))) as [Hgt | Heq].
    + destruct (Z.gtb_spec (SetattrRequest.Size req) MAX_FILE_SIZE); [lia |].
      rewrite slice_make_ok by lia. simpl.
      repeat split.
      rewrite slice_copy_into_zeros by lia.
      rewrite take_ge by lia. reflexivity.
    + simpl. repeat split.
      rewrite take_ge by lia.
      replace (Z.to_nat (SetattrRequest.Size req) - length live)%nat with 0%nat by lia.
      simpl. now rewrite app_nil_r.
Qed.

(** X4. [Setattr] keeps the invariant of a file, whether it succeeds or
    fails with EFBIG, and does not panic, for every size that fits an
    [int]. *)
Theorem Setattr_keeps_File_ok (file : File.t) (req : SetattrRequest.t)
    (now : time_Time) :
  0 <= SetattrRequest.Size req <= max_int ->
  File_ok file ->
  File_ok (File.Setattr file req now).2 /\ (File.Setattr file req now).1 <> Panic.
Proof.
  intros Hsize [Hattr Hmax].
  destruct (SetattrValid.Size (SetattrRequest.Valid req)) eqn:HS.
  - destruct (Z_le_gt_dec (SetattrRequest.Size req)
                          (Z.max (slice.len (File.Data file)) MAX_FILE_SIZE))
      as [Hle | Hgt].
    + destruct (Setattr_size_result file req now HS Hsize Hle)
        as (Hr & Hlive & Hs & _).
      cbv zeta in *. rewrite Hr. split; [| discriminate].
      unfold File_ok, slice.len in *. rewrite Hs, Hlive.
      rewrite length_app, length_take, length_replicate. lia.
    + rewrite Setattr_unfold. cbv zeta. rewrite HS.
      destruct file as [attrs [live spare]].
      unfold Setattr_fields, File_ok, slice.len in *; simpl in *.
      rewrite int64_id by (unfold min_int; lia).
      destruct (Z.ltb_spec (SetattrRequest.Size req) (Z.of_nat (length live))); [lia |].
      destruct (Z.gtb_spec (SetattrRequest.Size req) (Z.of_nat (length live))); [| lia].
      destruct (Z.gtb_spec (SetattrRequest.Size req) MAX_FILE_SIZE); [| lia].
      simpl. split; [split; assumption | discriminate].
  - rewrite Setattr_unfold. cbv zeta. rewrite HS.
    destruct file as [attrs [live spare]].
    unfold Setattr_fields, File_ok in *; simpl in *.
    split; [split; assumption | discriminate].
Qed.

Lemma Setattr_keeps_File_ok_witness :
  File_ok (File.Setattr (File.mk (Attr.mk 5 3 0 0 0 420 1000 1000)
                                 (slice.mk [x01; x02; x03] []))
                        (SetattrRequest.mk 8 5 0 0 0 0 0) 77).2.
Proof.
  refine (proj1
    (Setattr_keeps_File_ok
       (File.mk (Attr.mk 5 3 0 0 0 420 1000 1000) (slice.mk [x01; x02; x03] []))
       (SetattrRequest.mk 8 5 0 0 0 0 0) 77 _ _)).
  - vm_compute. intuition congruence.
  - split; vm_compute; congruence.
Defined.

(** X5. Bytes cut off by a truncation do not come back: after the size
    is set to [n] below the length and then to [m] above [n], the buffer
    is its first [n] bytes followed by zeros, although the truncation
    left the old bytes in the backing array. *)
Theorem Setattr_truncate_then_extend (file : File.t) (req1 req2 : SetattrRequest.t)
    (now1 now2 : time_Time) :
  SetattrValid.Size (SetattrRequest.Valid req1) = true ->
  SetattrValid.Size (SetattrRequest.Valid req2) = true ->
  0 <= SetattrRequest.Size req1 <= slice.len (File.Data file) ->
  SetattrRequest.Size req1 <= SetattrRequest.Size req2 <= MAX_FILE_SIZE ->
  let n := Z.to_nat (SetattrRequest.Size req1) in
  let m := Z.to_nat (SetattrRequest.Size req2) in
  let file1 := (File.Setattr file req1 now1).2 in
  slice.live (File.Data (File.Setattr file1 req2 now2).2)
  = take n (slice.live (File.Data file)) ++ replicate (m - n) x00.
Proof.
  intros HS1 HS2 Hn Hm. cbv zeta.
  assert (HM : MAX_FILE_SIZE = 536870912) by reflexivity.
  assert (H1 : 0 <= SetattrRequest.Size req1 <= max_int).
  { unfold max_int. lia. }
  destruct (Setattr_size_result file req1 now1 HS1 H1) as (_ & Hlive1 & _); [lia |].
  cbv zeta in Hlive1.
  set (file1 := (File.Setattr file req1 now1).2) in *.
  assert (Hlen1 : length (slice.live (File.Data file1))
                  = Z.to_nat (SetattrRequest.Size req1)).
  { rewrite Hlive1, length_app, length_take, length_replicate.
    unfold slice.len in Hn. lia. }
  assert (H2 : 0 <= SetattrRequest.Size req2 <= max_int).
  { unfold max_int. lia. }
  destruct (Setattr_size_result file1 req2 now2 HS2 H2) as (_ & Hlive2 & _); [lia |].
  cbv zeta in Hlive2. rewrite Hlive2, Hlen1.
  rewrite take_ge by lia. rewrite Hlive1.
  replace (Z.to_nat (SetattrRequest.Size req1)
           - length (slice.live (File.Data file)))%nat with 0%nat
    by (unfold slice.len in Hn; lia).
  simpl. now rewrite app_nil_r.
Qed.

Lemma Setattr_truncate_then_extend_witness :
  slice.live (File.Data
    (File.Setattr
       (File.Setattr (File.mk (Attr.mk 5 3 0 0 0 420 1000 1000)
                              (slice.mk [x01; x02; x03] []))
                     (SetattrRequest.mk 8 1 0 0 0 0 0) 77).2
       (SetattrRequest.mk 8 3 0 0 0 0 0) 78).2)
  = take 1 [x01; x02; x03] ++ replicate (3 - 1) x00.
Proof.
  apply (Setattr_truncate_then_extend
           (File.mk (Attr.mk 5 3 0 0 0 420 1000 1000) (slice.mk [x01; x02; x03] []))
           (SetattrRequest.mk 8 1 0 0 0 0 0) (SetattrRequest.mk 8 3 0 0 0 0 0) 77 78).
  - reflexivity.
  - reflexivity.
  - vm_compute. intuition congruence.
  - vm_compute. intuition congruence.
Defined.

(** X6. The same holds for a write past the end of a truncated file: the
    bytes between the new end and the offset of the write read as zero,
    not as what the file held there before the truncation. *)
Theorem Write_after_truncate (file : File.t) (req1 : SetattrRequest.t)
    (req2 : WriteRequest.t) (now1 now2 : time_Time) :
  SetattrValid.Size (SetattrRequest.Valid req1) = true ->
  0 <= SetattrRequest.Size req1 <= slice.len (File.Data file) ->
  SetattrRequest.Size req1 <= WriteRequest.Offset req2 ->
  WriteRequest.Offset req2 + Z.of_nat (length (WriteRequest.Data req2)) <= MAX_FILE_SIZE ->
  let n := Z.to_nat (SetattrRequest.Size req1) in
  let off := Z.to_nat (WriteRequest.Offset req2) in
  let file1 := (File.Setattr file req1 now1).2 in
  slice.live (File.Data (File.Write file1 req2 now2).2)
  = take n (slice.live (File.Data file)) ++ replicate (off - n) x00
      ++ WriteRequest.Data req2.
Proof.
  intros HS1 Hn Hoff Hcap. cbv zeta.
  assert (HM : MAX_FILE_SIZE = 536870912) by reflexivity.
  assert (H1 : 0 <= SetattrRequest.Size req1 <= max_int).
  { unfold max_int. lia. }
  destruct (Setattr_size_result file req1 now1 HS1 H1) as (_ & Hlive1 & _); [lia |].
  cbv zeta in Hlive1.
  destruct ((File.Setattr file req1 now1).2) as [attrs1 [live1 spare1]].
  destruct req2 as [off data]. simpl in *.
  destruct (Write_result attrs1 live1 spare1 data off now2) as [-> _]; [lia | lia |].
  simpl.
  assert (Hlen1 : length live1 = Z.to_nat (SetattrRequest.Size req1)).
  { rewrite Hlive1, length_app, length_take, length_replicate.
    unfold slice.len in Hn. lia. }
  rewrite take_ge by (rewrite length_app, length_replicate; lia).
  rewrite drop_ge by lia. rewrite app_nil_r, <- app_assoc, Hlen1. f_equal.
  rewrite Hlive1.
  replace (Z.to_nat (SetattrRequest.Size req1)
           - length (slice.live (File.Data file)))%nat with 0%nat
    by (unfold slice.len in Hn; lia).
  simpl. now rewrite app_nil_r.
Qed.

Lemma Write_after_truncate_witness :
  slice.live (File.Data
    (File.Write
       (File.Setattr (File.mk (Attr.mk 5 3 0 0 0 420 1000 1000)
                              (slice.mk [x01; x02; x03] []))
                     (SetattrRequest.mk 8 1 0 0 0 0 0) 77).2
       (WriteRequest.mk 3 [x0a]) 78).2)
  = take 1 [x01; x02; x03] ++ replicate (3 - 1) x00 ++ [x0a].
Proof.
  apply (Write_after_truncate
           (File.mk (Attr.mk 5 3 0 0 0 420 1000 1000) (slice.mk [x01; x02; x03] []))
           (SetattrRequest.mk 8 1 0 0 0 0 0) (WriteRequest.mk 3 [x0a]) 77 78).
  - reflexivity.
  - vm_compute. intuition congruence.
  - vm_compute. congruence.
  - vm_compute. congruence.
Defined.

(** X7. Writes at the end of the file append: two writes, each starting
    where the buffer ends, leave the old bytes followed by the bytes of
    the first and then of the second. *)
Theorem Write_append (file : File.t) (data1 data2 : list byte) (now1 now2 : time_Time) :
  slice.len (File.Data file) + Z.of_nat (length data1) + Z.of_nat (length data2)
    <= MAX_FILE_SIZE ->
  let file1 :=
    (File.Write file (WriteRequest.mk (slice.len (File.Data file)) data1) now1).2 in
  let file2 :=
    (File.Write file1 (WriteRequest.mk (slice.len (File.Data file1)) data2) now2).2 in
  slice.live (File.Data file1) = slice.live (File.Data file) ++ data1
  /\ slice.live (File.Data file2) = slice.live (File.Data file) ++ data1 ++ data2
  /\ Attr.Size (File.Attributes file2)
     = slice.len (File.Data file) + Z.of_nat (length data1) + Z.of_nat (length data2).
Proof.
  assert (Happend : forall attrs live spare data now,
    Z.of_nat (length live) + Z.of_nat (length data) <= MAX_FILE_SIZE ->
    exists attrs' spare',
      (File.Write (File.mk attrs (slice.mk live spare))
                  (WriteRequest.mk (Z.of_nat (length live)) data) now).2
      = File.mk attrs' (slice.mk (live ++ data) spare')
      /\ Attr.Size attrs' = Z.of_nat (length (live ++ data))).
  { intros attrs live spare data now Hcap.
    destruct (Write_result attrs live spare data (Z.of_nat (length live)) now)
      as [-> _]; [lia | lia |].
    simpl. rewrite Nat2Z.id, Nat.sub_diag. simpl. rewrite app_nil_r.
    rewrite take_ge by lia. rewrite drop_ge by lia. rewrite app_nil_r.
    eexists _, _. split; reflexivity. }
  destruct file as [attrs [live spare]]. unfold slice.len; simpl. intros Hcap.
  destruct (Happend attrs live spare data1 now1) as (attrs1 & spare1 & -> & _);
    [lia |].
  simpl. split; [reflexivity |].
  destruct (Happend attrs1 (live ++ data1) spare1 data2 now2)
    as (attrs2 & spare2 & -> & Hsize).
  { rewrite length_app. lia. }
  simpl. rewrite <- app_assoc. split; [reflexivity |].
  rewrite Hsize, !length_app. lia.
Qed.

Lemma Write_append_witness :
  slice.live (File.Data
    (File.Write (File.mk (Attr.mk 5 0 0 0 0 420 1000 1000) slice.empty)
                (WriteRequest.mk (slice.len slice.empty) [x68; x69]) 77).2)
  = slice.live slice.empty ++ [x68; x69].
Proof.
  refine (proj1
    (Write_append (File.mk (Attr.mk 5 0 0 0 0 420 1000 1000) slice.empty)
                  [x68; x69] [x21] 77 78 _)).
  vm_compute. congruence.
Defined.

(** ** node.go: the inode counter *)

(** X8. Below its last value the counter hands out its successor: two
    allocations in a row return [c + 1] and [c + 2], so an inode is never
    zero, never the value the counter was seeded with, and never handed
    out twice; at the last value of a [uint64] the allocation panics. *)
Theorem GetInodeAndIncrease_fresh (inodeCounter : Z) :
  0 <= inodeCounter < 2 ^ 64 ->
  (inodeCounter + 2 < 2 ^ 64 ->
   GetInodeAndIncrease inodeCounter = (Ok (inodeCounter + 1), inodeCounter + 1)
   /\ GetInodeAndIncrease (GetInodeAndIncrease inodeCounter).2
      = (Ok (inodeCounter + 2), inodeCounter + 2))
  /\ (inodeCounter = 2 ^ 64 - 1 -> (GetInodeAndIncrease inodeCounter).1 = Panic).
Proof.
  intros Hc. unfold GetInodeAndIncrease. split.
  - intros Hroom. rewrite uint64_small by lia.
    destruct (Z.eqb_spec (inodeCounter + 1) 0); [lia |]. cbn [snd].
    split; [reflexivity |].
    replace (inodeCounter + 1 + 1) with (inodeCounter + 2) by lia.
    rewrite uint64_small by lia.
    destruct (Z.eqb_spec (inodeCounter + 2) 0); [lia | reflexivity].
  - intros ->. reflexivity.
Qed.

Lemma GetInodeAndIncrease_fresh_witness :
  GetInodeAndIncrease inodeCounter_initial = (Ok 3, 3)
  /\ GetInodeAndIncrease (GetInodeAndIncrease inodeCounter_initial).2 = (Ok 4, 4).
Proof.
  refine (proj1 (GetInodeAndIncrease_fresh inodeCounter_initial _) _).
  - vm_compute. intuition congruence.
  - vm_compute. reflexivity.
Defined.

(** ** node.go: Create, Mkdir, Remove and Lookup *)

Lemma counter_success (inodeCounter : Z) :
  uint64 (inodeCounter + 1) <> 0 ->
  GetInodeAndIncrease inodeCounter
  = (Ok (uint64 (inodeCounter + 1)), uint64 (inodeCounter + 1)).
Proof.
  intros Hne. unfold GetInodeAndIncrease.
  destruct (Z.eqb_spec (uint64 (inodeCounter + 1)) 0); [contradiction | reflexivity].
Qed.

Section DirExtras.
Variable ValidateName : string -> option Errno.

(** X9. For a valid name that is not taken, [Create] succeeds exactly
    when the caller has both the write and the search bit of the
    directory, taken from the owner's bits if the uid is the owner's, else
    from the group's if the gid is the group's, else from the others';
    otherwise it fails with EACCES. The new file is empty, of size zero,
    has the permission bits of the requested mode, the caller's uid and
    gid, and the next inode; the directory gains it under the name and is
    stamped. *)
Theorem Create_permission (directory : Dir.t) (req : CreateRequest.t)
    (now : time_Time) (inodeCounter : Z) :
  ValidateName (CreateRequest.Name req) = None ->
  Dir.Children directory !! CreateRequest.Name req = None ->
  uint64 (inodeCounter + 1) <> 0 ->
  let hdr := CreateRequest.Header req in
  let attrs := Dir.Attributes directory in
  let file :=
    File.mk (Attr.mk (uint64 (inodeCounter + 1)) 0 now now now
               (Z.land (CreateRequest.Mode req) 511) (Header.Uid hdr) (Header.Gid hdr))
            slice.empty in
  (triad_bit hdr attrs 128 16 2 && triad_bit hdr attrs 64 8 1 = true ->
   Dir.Create ValidateName directory req now inodeCounter
   = (Ok file,
      Dir.touch now now
        (Dir.with_Children (<[CreateRequest.Name req := NFile file]>
                              (Dir.Children directory)) directory),
      uint64 (inodeCounter + 1)))
  /\ (triad_bit hdr attrs 128 16 2 && triad_bit hdr attrs 64 8 1 = false ->
      Dir.Create ValidateName directory req now inodeCounter
      = (Err EACCES, directory, inodeCounter)).
Proof.
  intros Hvalid Hfree Hctr hdr attrs file. subst hdr attrs file.
  unfold Dir.Create, triad_bit, FileMode_Perm, ModePerm. cbv zeta.
  rewrite Hvalid, Hfree, (counter_success _ Hctr).
  destruct (Header.Uid (CreateRequest.Header req) =? Attr.Uid (Dir.Attributes directory)),
    (Header.Gid (CreateRequest.Header req) =? Attr.Gid (Dir.Attributes directory));
    repeat match goal with
           | |- context [Z.land ?m ?b =? 0] => destruct (Z.land m b =? 0)
           end; simpl; split; intros; try discriminate; reflexivity.
Qed.

(** X10. What was entered is found, what was removed is not, and the
    other names are not affected: after a successful [Create] or [Mkdir]
    a [Lookup] of the name returns the new node, after a successful
    [Remove] it fails with ENOENT, and in all three cases a [Lookup] of
    any other name gives what it gave before. *)
Theorem Lookup_after_update (directory : Dir.t) (inodeCounter : Z) :
  (forall req now file directory' inodeCounter',
     Dir.Create ValidateName directory req now inodeCounter
       = (Ok file, directory', inodeCounter') ->
     Dir.Lookup directory' (CreateRequest.Name req) = Ok (NFile file)
     /\ forall other, other <> CreateRequest.Name req ->
                      Dir.Lookup directory' other = Dir.Lookup directory other)
  /\ (forall req now dir directory' inodeCounter',
        Dir.Mkdir ValidateName directory req now inodeCounter
          = (Ok dir, directory', inodeCounter') ->
        Dir.Lookup directory' (MkdirRequest.Name req) = Ok (NDir dir)
        /\ forall other, other <> MkdirRequest.Name req ->
                         Dir.Lookup directory' other = Dir.Lookup directory other)
  /\ (forall req now1 now2 directory',
        Dir.Remove ValidateName directory req now1 now2 = (Ok tt, directory') ->
        Dir.Lookup directory' (RemoveRequest.Name req) = Err ENOENT
        /\ forall other, other <> RemoveRequest.Name req ->
                         Dir.Lookup directory' other = Dir.Lookup directory other).
Proof.
  split; [| split].
  - intros req now file directory' c'. unfold Dir.Create, GetInodeAndIncrease.
    destruct (ValidateName _); [discriminate |].
    destruct (Dir.Children directory !! _); [discriminate |].
    destruct (if _ =? _ then _ else _); [discriminate |].
    destruct (if _ =? _ then _ else _); [discriminate |].
    destruct (uint64 (inodeCounter + 1) =? 0); [discriminate |].
    intros [= <- <- <-]. unfold Dir.Lookup. destruct directory; simpl. split.
    + now rewrite lookup_insert_eq.
    + intros other Hne. now rewrite lookup_insert_ne by congruence.
  - intros req now dir directory' c'. unfold Dir.Mkdir, GetInodeAndIncrease.
    destruct (ValidateName _); [discriminate |].
    destruct (Dir.Children directory !! _); [discriminate |].
    destruct (negb _); [discriminate |].
    destruct (negb _); [discriminate |].
    destruct (uint64 (inodeCounter + 1) =? 0); [discriminate |].
    intros [= <- <- <-]. unfold Dir.Lookup. destruct directory; simpl. split.
    + now rewrite lookup_insert_eq.
    + intros other Hne. now rewrite lookup_insert_ne by congruence.
  - intros req now1 now2 directory'. unfold Dir.Remove.
    destruct (ValidateName _); [discriminate |].
    destruct (Dir.Children directory !! _); [| discriminate].
    destruct (negb _); [discriminate |].
    destruct (negb _); [discriminate |].
    intros [= <-]. unfold Dir.Lookup. destruct directory; simpl. split.
    + now rewrite lookup_delete_eq.
    + intros other Hne. now rewrite lookup_delete_ne by congruence.
Qed.

(** X11. A [Create], [Mkdir] or [Remove] that returns an error leaves the
    directory and the inode counter as they were. The test for the name
    comes before the test of the caller: for a valid name that is taken,
    [Create] and [Mkdir] fail with EEXIST whoever calls, and for a valid
    name that is absent [Remove] fails with ENOENT whoever calls. *)
Theorem Dir_errors_keep_state (directory : Dir.t) (inodeCounter : Z) :
  (forall req now e directory' inodeCounter',
     Dir.Create ValidateName directory req now inodeCounter
       = (Err e, directory', inodeCounter') ->
     directory' = directory /\ inodeCounter' = inodeCounter)
  /\ (forall req now e directory' inodeCounter',
        Dir.Mkdir ValidateName directory req now inodeCounter
          = (Err e, directory', inodeCounter') ->
        directory' = directory /\ inodeCounter' = inodeCounter)
  /\ (forall req now1 now2 e directory',
        Dir.Remove ValidateName directory req now1 now2 = (Err e, directory') ->
        directory' = directory)
  /\ (forall hdr name mode now,
        ValidateName name = None -> is_Some (Dir.Children directory !! name) ->
        Dir.Create ValidateName directory (CreateRequest.mk hdr name mode) now inodeCounter
          = (Err EEXIST, directory, inodeCounter)
        /\ Dir.Mkdir ValidateName directory (MkdirRequest.mk hdr name mode) now inodeCounter
           = (Err EEXIST, directory, inodeCounter))
  /\ (forall hdr name now1 now2,
        ValidateName name = None -> Dir.Children directory !! name = None ->
        Dir.Remove ValidateName directory (RemoveRequest.mk hdr name) now1 now2
          = (Err ENOENT, directory)).
Proof.
  split; [| split; [| split; [| split]]].
  - intros req now e directory' c'. unfold Dir.Create, GetInodeAndIncrease.
    destruct (ValidateName _); [intros [= _ <- <-]; auto |].
    destruct (Dir.Children directory !! _); [intros [= _ <- <-]; auto |].
    destruct (if _ =? _ then _ else _); [intros [= _ <- <-]; auto |].
    destruct (if _ =? _ then _ else _); [intros [= _ <- <-]; auto |].
    destruct (uint64 (inodeCounter + 1) =? 0); discriminate.
  - intros req now e directory' c'. unfold Dir.Mkdir, GetInodeAndIncrease.
    destruct (ValidateName _); [intros [= _ <- <-]; auto |].
    destruct (Dir.Children directory !! _); [intros [= _ <- <-]; auto |].
    destruct (negb _); [intros [= _ <- <-]; auto |].
    destruct (negb _); [intros [= _ <- <-]; auto |].
    destruct (uint64 (inodeCounter + 1) =? 0); discriminate.
  - intros req now1 now2 e directory'. unfold Dir.Remove.
    destruct (ValidateName _); [intros [= _ <-]; auto |].
    destruct (Dir.Children directory !! _); [| intros [= _ <-]; auto].
    destruct (negb _); [intros [= _ <-]; auto |].
    destruct (negb _); [intros [= _ <-]; auto |].
    discriminate.
  - intros hdr name mode now Hvalid [child Hchild].
    unfold Dir.Create, Dir.Mkdir; simpl. rewrite Hvalid, Hchild. split; reflexivity.
  - intros hdr name now1 now2 Hvalid Hnone.
    unfold Dir.Remove; simpl. now rewrite Hvalid, Hnone.
Qed.

End DirExtras.

Lemma Create_permission_witness :
  Dir.Create ValidateName
    (mkDir (Attr.mk 1 0 0 0 0 2147484141 1000 1000) ∅ (XBin25Config.mk "" "" "" "" "" 0 0))
    (CreateRequest.mk (Header.mk 1000 1000) "b.txt" 420) 77 2
  = (Ok (File.mk (Attr.mk 3 0 77 77 77 420 1000 1000) slice.empty),
     mkDir (Attr.mk 1 0 0 77 77 2147484141 1000 1000)
           {[ "b.txt" := NFile (File.mk (Attr.mk 3 0 77 77 77 420 1000 1000) slice.empty) ]}
           (XBin25Config.mk "" "" "" "" "" 0 0),
     3).
Proof.
  refine (proj1
    (Create_permission ValidateName
       (mkDir (Attr.mk 1 0 0 0 0 2147484141 1000 1000) ∅
              (XBin25Config.mk "" "" "" "" "" 0 0))
       (CreateRequest.mk (Header.mk 1000 1000) "b.txt" 420) 77 2 _ _ _) _).
  - reflexivity.
  - reflexivity.
  - vm_compute. congruence.
  - reflexivity.
Defined.

Lemma Lookup_after_update_witness :
  Dir.Lookup
    (mkDir (Attr.mk 1 0 0 77 77 2147484141 1000 1000)
           {[ "b.txt" := NFile (File.mk (Attr.mk 3 0 77 77 77 420 1000 1000) slice.empty) ]}
           (XBin25Config.mk "" "" "" "" "" 0 0))
    "b.txt"
  = Ok (NFile (File.mk (Attr.mk 3 0 77 77 77 420 1000 1000) slice.empty)).
Proof.
  refine (proj1 (proj1
    (Lookup_after_update ValidateName
       (mkDir (Attr.mk 1 0 0 0 0 2147484141 1000 1000) ∅
              (XBin25Config.mk "" "" "" "" "" 0 0)) 2)
    (CreateRequest.mk (Header.mk 1000 1000) "b.txt" 420) 77 _ _ 3 _)).
  reflexivity.
Defined.

Lemma Dir_errors_keep_state_witness :
  Dir.Remove ValidateName
    (mkDir (Attr.mk 1 0 0 0 0 2147484141 1000 1000) ∅ (XBin25Config.mk "" "" "" "" "" 0 0))
    (RemoveRequest.mk (Header.mk 7 7) "b.txt") 77 78
  = (Err ENOENT,
     mkDir (Attr.mk 1 0 0 0 0 2147484141 1000 1000) ∅ (XBin25Config.mk "" "" "" "" "" 0 0)).
Proof.
  refine (proj2 (proj2 (proj2 (proj2
    (Dir_errors_keep_state ValidateName
       (mkDir (Attr.mk 1 0 0 0 0 2147484141 1000 1000) ∅
              (XBin25Config.mk "" "" "" "" "" 0 0)) 2))))
    (Header.mk 7 7) "b.txt" 77 78 _ _).
  - reflexivity.
  - reflexivity.
Defined.

(** ** node.go: Dir.Setattr and ReadDirAll *)

(** X12. [Setattr] of a directory never fails. It sets the fields among
    mode, uid, gid, atime and mtime that the mask selects to the values
    of the request and keeps the others; the inode, the size, the change
    time, the children and the configuration stay as they are, also when
    the mask selects a size. *)
Theorem Dir_Setattr_fields (directory : Dir.t) (req : SetattrRequest.t) :
  let valid := SetattrRequest.Valid req in
  let attrs := Dir.Attributes directory in
  let pick (selected : bool) (new old : Z) := if selected then new else old in
  Dir.Setattr directory req
  = (Ok (SetattrResponse.mk (Dir.Attributes (Dir.Setattr directory req).2)),
     mkDir
       (Attr.mk (Attr.Inode attrs) (Attr.Size attrs)
          (pick (SetattrValid.Atime valid) (SetattrRequest.Atime req) (Attr.Atime attrs))
          (pick (SetattrValid.Mtime valid) (SetattrRequest.Mtime req) (Attr.Mtime attrs))
          (Attr.Ctime attrs)
          (pick (SetattrValid.Mode valid) (SetattrRequest.Mode req) (Attr.Mode attrs))
          (pick (SetattrValid.Uid valid) (SetattrRequest.Uid req) (Attr.Uid attrs))
          (pick (SetattrValid.Gid valid) (SetattrRequest.Gid req) (Attr.Gid attrs)))
       (Dir.Children directory) (Dir.Config directory)).
Proof.
  destruct directory as [[inode size atime mtime ctime mode uid gid] children cfg].
  unfold Dir.Setattr; simpl.
  destruct (SetattrValid.Mode _), (SetattrValid.Uid _), (SetattrValid.Gid _),
    (SetattrValid.Atime _), (SetattrValid.Mtime _); reflexivity.
Qed.

(** X13. [ReadDirAll] lists the children and nothing else: one entry for
    every child, no name twice, and an entry of a given name, inode and
    type is listed exactly when the directory has a child of that name,
    with that inode, that is a directory or a file accordingly. *)
Theorem ReadDirAll_entries (directory : Dir.t) :
  exists entries,
    Dir.ReadDirAll directory = Ok entries
    /\ length entries = size (Dir.Children directory)
    /\ NoDup (Dirent.Name <$> entries)
    /\ forall inode name type_,
         Dirent.mk inode name type_ ∈ entries <->
         exists node,
           Dir.Children directory !! name = Some node
           /\ inode = Attr.Inode (Dir.GetAttr node)
           /\ type_ = match node with NDir _ => DT_Dir | NFile _ => DT_File end.
Proof.
  unfold Dir.ReadDirAll. eexists. split; [reflexivity |].
  split; [| split].
  - now rewrite length_fmap, length_map_to_list.
  - rewrite <- list_fmap_compose.
    rewrite (list_fmap_ext _ fst (map_to_list (Dir.Children directory))).
    + apply NoDup_fst_map_to_list.
    + intros i [name node] _. reflexivity.
  - intros inode name type_. rewrite list_elem_of_fmap. split.
    + intros ([name' node] & Heq & Hin). apply elem_of_map_to_list in Hin.
      injection Heq as -> -> ->. eauto.
    + intros (node & Hnode & -> & ->). exists (name, node).
      split; [reflexivity | now apply elem_of_map_to_list].
Qed.

(** ** node.go: Rename *)

(** X14. A [Rename] that returns an error has changed nothing; and a
    destination that is not a directory is rejected with EINVAL once the
    names have passed. *)
Theorem Rename_failure_keeps_store (σ : gmap ptr Node) (directory newDir : ptr)
    (req : RenameRequest.t) (now : time_Time) :
  (forall e, (Dir.Rename σ directory req newDir now).1.1 = Err e ->
             (Dir.Rename σ directory req newDir now).1.2 = σ)
  /\ (Dir.Rename_bad_name (RenameRequest.NewName req) = false ->
      Dir.Rename_bad_name (RenameRequest.OldName req) = false ->
      (forall d, σ !! newDir <> Some (NDir d)) ->
      Dir.Rename σ directory req newDir now = (Err EINVAL, σ, [])).
Proof.
  unfold Dir.Rename. split.
  - intros e.
    destruct (Dir.Rename_bad_name (RenameRequest.NewName req)); [reflexivity |].
    destruct (Dir.Rename_bad_name (RenameRequest.OldName req)); [reflexivity |].
    destruct (σ !! newDir) as [[target | f] |]; try reflexivity.
    destruct (σ !! directory) as [[source | f] |]; try reflexivity.
    destruct (negb _ || negb _); [reflexivity |].
    destruct (if _ >? _ then _ else _) as [first second].
    destruct (Dir.Children source !! _); [discriminate | reflexivity].
  - intros -> -> Hnot.
    destruct (σ !! newDir) as [[target | f] |]; try reflexivity.
    exfalso. now apply (Hnot target).
Qed.

Lemma Rename_failure_keeps_store_witness :
  Dir.Rename
    {[ 1%positive :=
         NDir (mkDir (Attr.mk 1 0 0 0 0 2147484141 1000 1000)
                     {[ "a" := NFile (File.mk (Attr.mk 3 0 0 0 0 420 1000 1000)
                                              slice.empty) ]}
                     (XBin25Config.mk "" "" "" "" "" 0 0));
       2%positive := NFile (File.mk (Attr.mk 4 0 0 0 0 420 1000 1000) slice.empty) ]}
    1%positive (RenameRequest.mk (Header.mk 1000 1000) "a" "b") 2%positive 77
  = (Err EINVAL,
     {[ 1%positive :=
          NDir (mkDir (Attr.mk 1 0 0 0 0 2147484141 1000 1000)
                      {[ "a" := NFile (File.mk (Attr.mk 3 0 0 0 0 420 1000 1000)
                                               slice.empty) ]}
                      (XBin25Config.mk "" "" "" "" "" 0 0));
        2%positive := NFile (File.mk (Attr.mk 4 0 0 0 0 420 1000 1000) slice.empty) ]},
     []).
Proof.
  refine (proj2
    (Rename_failure_keeps_store
       {[ 1%positive :=
            NDir (mkDir (Attr.mk 1 0 0 0 0 2147484141 1000 1000)
                        {[ "a" := NFile (File.mk (Attr.mk 3 0 0 0 0 420 1000 1000)
                                                 slice.empty) ]}
                        (XBin25Config.mk "" "" "" "" "" 0 0));
          2%positive := NFile (File.mk (Attr.mk 4 0 0 0 0 420 1000 1000) slice.empty) ]}
       1%positive 2%positive (RenameRequest.mk (Header.mk 1000 1000) "a" "b") 77)
    _ _ _).
  - reflexivity.
  - reflexivity.
  - intros d. vm_compute. discriminate.
Defined.






Section RenameAndRemove.
Variable ValidateName : string -> option Errno.

(** X17. [Rename] asks for the write bit only, [Remove] for ownership:
    a caller who is not the owner of a directory but has its write bit is
    refused by [Remove] with EPERM, and yet takes the same entry out of
    the same directory with a [Rename] to another name. *)
Theorem Rename_where_Remove_is_denied (p : ptr) (d : Dir.t) (hdr : Header.t)
    (old new : string) (child : Node) (now now1 now2 : time_Time) :
  ~ owner_matches hdr d ->
  may_write hdr d = true ->
  Dir.Children d !! old = Some child ->
  ValidateName old = None ->
  Dir.Rename_bad_name old = false ->
  Dir.Rename_bad_name new = false ->
  old <> new ->
  Dir.Remove ValidateName d (RemoveRequest.mk hdr old) now1 now2 = (Err EPERM, d)
  /\ exists d',
       (Dir.Rename {[ p := NDir d ]} p (RenameRequest.mk hdr old new) p now).1
       = (Ok tt, {[ p := NDir d' ]})
       /\ Dir.Lookup d' old = Err ENOENT
       /\ Dir.Lookup d' new = Ok child.
Proof.
  intros Hown Hw Hchild Hvalid Hold Hnew Hne. split.
  - destruct (owner_check hdr d) as [_ Hno]. specialize (Hno Hown).
    unfold Dir.Remove; simpl. rewrite Hvalid, Hchild.
    destruct Hno as [-> | [-> ->]]; reflexivity.
  - exists (renamed_within old new child now d).
    rewrite (Rename_success {[ p := NDir d ]} p p (RenameRequest.mk hdr old new) now
               d d child); simpl;
      try (apply lookup_singleton_eq); try assumption.
    + destruct (decide (p = p)); [| congruence].
      rewrite insert_singleton_eq. split; [reflexivity |].
      unfold Dir.Lookup. destruct d as [attrs children cfg]; simpl.
      rewrite lookup_insert_ne by congruence. rewrite lookup_delete_eq.
      rewrite lookup_insert_eq. split; reflexivity.
    + now rewrite Hw.
Qed.

End RenameAndRemove.

Lemma Rename_where_Remove_is_denied_witness :
  Dir.Remove ValidateName
    (mkDir (Attr.mk 1 0 0 0 0 2147484159 1000 1000)
           {[ "a" := NFile (File.mk (Attr.mk 3 0 0 0 0 420 1000 1000) slice.empty) ]}
           (XBin25Config.mk "" "" "" "" "" 0 0))
    (RemoveRequest.mk (Header.mk 7 7) "a") 77 78
  = (Err EPERM,
     mkDir (Attr.mk 1 0 0 0 0 2147484159 1000 1000)
           {[ "a" := NFile (File.mk (Attr.mk 3 0 0 0 0 420 1000 1000) slice.empty) ]}
           (XBin25Config.mk "" "" "" "" "" 0 0)).
Proof.
  refine (proj1
    (Rename_where_Remove_is_denied ValidateName 1%positive
       (mkDir (Attr.mk 1 0 0 0 0 2147484159 1000 1000)
              {[ "a" := NFile (File.mk (Attr.mk 3 0 0 0 0 420 1000 1000) slice.empty) ]}
              (XBin25Config.mk "" "" "" "" "" 0 0))
       (Header.mk 7 7) "a" "b"
       (NFile (File.mk (Attr.mk 3 0 0 0 0 420 1000 1000) slice.empty))
       76 77 78 _ _ _ _ _ _ _)).
  - unfold owner_matches; simpl. intros [Huid _]. discriminate Huid.
  - reflexivity.
  - reflexivity.
  - reflexivity.
  - reflexivity.
  - reflexivity.
  - discriminate.
Defined.

(** ** node.go: inodes stay unique *)

Lemma concat_Permutation {A} (l k : list (list A)) : l ≡ₚ k -> concat l ≡ₚ concat k.
Proof.
  induction 1 as [| x l k _ IH | x y l | l k m _ IH1 _ IH2]; simpl.
  - reflexivity.
  - now rewrite IH.
  - rewrite !app_assoc. f_equiv. apply Permutation_app_comm.
  - now rewrite IH1.
Qed.

Lemma Dir_inodes_insert (attributes : Attr.t) (children : gmap string Node)
    (cfg : XBin25Config.t) (name : string) (node : Node) :
  children !! name = None ->
  Dir_inodes (mkDir attributes (<[name := node]> children) cfg)
  ≡ₚ Node_inodes node ++ Dir_inodes (mkDir attributes children cfg).
Proof.
  intros Hfree. simpl. rewrite fmap_insert.
  rewrite (concat_Permutation _ (Node_inodes node
             :: (map_to_list (Node_inodes <$> children)).*2)).
  - simpl. apply Permutation_middle.
  - rewrite map_to_list_insert by now rewrite lookup_fmap, Hfree.
    reflexivity.
Qed.

Lemma inodes_ok_insert (attributes attributes' : Attr.t) (children : gmap string Node)
    (cfg : XBin25Config.t) (name : string) (node : Node) (inodeCounter : Z) :
  inodeCounter < 2 ^ 64 ->
  uint64 (inodeCounter + 1) <> 0 ->
  children !! name = None ->
  Attr.Inode attributes' = Attr.Inode attributes ->
  Node_inodes node = [uint64 (inodeCounter + 1)] ->
  inodes_ok inodeCounter (mkDir attributes children cfg) ->
  inodes_ok (uint64 (inodeCounter + 1))
            (mkDir attributes' (<[name := node]> children) cfg)
  /\ uint64 (inodeCounter + 1) = inodeCounter + 1.
Proof.
  intros Hlt Hne Hfree Hinode Hnode [Hdup Hall].
  assert (Hpos : 0 < inodeCounter).
  { simpl in Hall. apply Forall_cons in Hall. lia. }
  assert (Hnew : uint64 (inodeCounter + 1) = inodeCounter + 1).
  { destruct (Z.eq_dec (inodeCounter + 1) (2 ^ 64)) as [Heq | Hne'].
    - exfalso. apply Hne. rewrite Heq. reflexivity.
    - apply uint64_small. lia. }
  split; [| exact Hnew]. rewrite Hnew.
  assert (Hperm : Dir_inodes (mkDir attributes' (<[name := node]> children) cfg)
                  ≡ₚ (inodeCounter + 1) :: Dir_inodes (mkDir attributes children cfg)).
  { rewrite Dir_inodes_insert by assumption. rewrite Hnode, Hnew. simpl.
    now rewrite Hinode. }
  unfold inodes_ok. rewrite Hperm. split.
  - apply NoDup_cons. split; [| assumption].
    intros Hin. rewrite Forall_forall in Hall. specialize (Hall _ Hin). lia.
  - apply Forall_cons. split; [lia |].
    eapply Forall_impl; [exact Hall |]. simpl. intros i Hi. lia.
Qed.

Section InodeInvariant.
Variable ValidateName : string -> option Errno.

(** X18. [Create] and [Mkdir] keep the inodes of a tree distinct and at
    most the counter: if that holds of a directory, its subtree and the
    counter before a successful call, it holds after it, and the new node
    has the inode after the old counter. *)
Theorem Create_Mkdir_keep_inodes (directory : Dir.t) (inodeCounter : Z) :
  inodeCounter < 2 ^ 64 ->
  inodes_ok inodeCounter directory ->
  (forall req now file directory' inodeCounter',
     Dir.Create ValidateName directory req now inodeCounter
       = (Ok file, directory', inodeCounter') ->
     inodes_ok inodeCounter' directory'
     /\ inodeCounter' = inodeCounter + 1
     /\ Attr.Inode (File.Attributes file) = inodeCounter + 1)
  /\ (forall req now dir directory' inodeCounter',
        Dir.Mkdir ValidateName directory req now inodeCounter
          = (Ok dir, directory', inodeCounter') ->
        inodes_ok inodeCounter' directory'
        /\ inodeCounter' = inodeCounter + 1
        /\ Attr.Inode (Dir.Attributes dir) = inodeCounter + 1).
Proof.
  intros Hlt Hok. destruct directory as [attrs children cfg]. split.
  - intros req now file directory' c'. unfold Dir.Create, GetInodeAndIncrease.
    destruct (ValidateName _); [discriminate |].
    destruct (Dir.Children _ !! _) eqn:Hfree; [discriminate |].
    destruct (if _ =? _ then _ else _); [discriminate |].
    destruct (if _ =? _ then _ else _); [discriminate |].
    destruct (Z.eqb_spec (uint64 (inodeCounter + 1)) 0) as [| Hne]; [discriminate |].
    intros [= <- <- <-]. simpl in Hfree.
    unfold Dir.touch, Dir.with_Children, Dir.with_Attributes. simpl Dir.Children.
    simpl Dir.Config. simpl Dir.Attributes.
    edestruct (inodes_ok_insert attrs) as [Hok' Hnew]; try eassumption;
      [| | split; [exact Hok' | split; [exact Hnew | exact Hnew]]]; reflexivity.
  - intros req now dir directory' c'. unfold Dir.Mkdir, GetInodeAndIncrease.
    destruct (ValidateName _); [discriminate |].
    destruct (Dir.Children _ !! _) eqn:Hfree; [discriminate |].
    destruct (negb _); [discriminate |].
    destruct (negb _); [discriminate |].
    destruct (Z.eqb_spec (uint64 (inodeCounter + 1)) 0) as [| Hne]; [discriminate |].
    intros [= <- <- <-]. simpl in Hfree.
    unfold Dir.touch, Dir.with_Children, Dir.with_Attributes. simpl Dir.Children.
    simpl Dir.Config. simpl Dir.Attributes.
    edestruct (inodes_ok_insert attrs) as [Hok' Hnew]; try eassumption;
      [| | split; [exact Hok' | split; [exact Hnew | exact Hnew]]].
    + reflexivity.
    + simpl. rewrite fmap_empty, map_to_list_empty. reflexivity.
Qed.

End InodeInvariant.

Lemma Create_Mkdir_keep_inodes_witness :
  inodes_ok 3
    (mkDir (Attr.mk 1 0 0 77 77 2147484141 1000 1000)
           {[ "b.txt" := NFile (File.mk (Attr.mk 3 0 77 77 77 420 1000 1000) slice.empty) ]}
           (XBin25Config.mk "" "" "" "" "" 0 0)).
Proof.
  refine (proj1 (proj1
    (Create_Mkdir_keep_inodes ValidateName
       (mkDir (Attr.mk 1 0 0 0 0 2147484141 1000 1000) ∅
              (XBin25Config.mk "" "" "" "" "" 0 0)) 2 _ _)
    (CreateRequest.mk (Header.mk 1000 1000) "b.txt" 420) 77 _ _ 3 _)).
  - vm_compute. reflexivity.
  - split.
    + simpl. rewrite fmap_empty, map_to_list_empty. simpl.
      apply NoDup_cons. split; [apply not_elem_of_nil | apply NoDup_nil_2].
    + simpl. rewrite fmap_empty, map_to_list_empty. simpl.
      apply Forall_cons. split; [lia | apply Forall_nil_2].
  - reflexivity.
Defined.

(** ** node.go: GetTotalInodes *)

Lemma uint64_add_l a b : uint64 (uint64 a + b) = uint64 (a + b).
Proof. unfold uint64. now rewrite Zplus_mod_idemp_l. Qed.

Lemma uint64_add_r a b : uint64 (a + uint64 b) = uint64 (a + b).
Proof. unfold uint64. now rewrite Zplus_mod_idemp_r. Qed.

Lemma count_fold (l : list (string * Node)) :
  (forall name node, (name, node) ∈ l ->
     Node_count node = uint64 (Z.of_nat (length (Node_inodes node)))) ->
  foldr (uncurry (fun (_ : string) c count => uint64 (count + c))) 1
        (prod_map id Node_count <$> l)
  = uint64 (Z.of_nat (S (length (concat ((prod_map id Node_inodes <$> l).*2))))).
Proof.
  induction l as [| [name node] l IH]; intros Hall; [reflexivity |].
  cbn [fmap list_fmap foldr prod_map uncurry fst snd id concat].
  rewrite IH by (intros name' node' Hin; apply (Hall name' node'); now right).
  rewrite (Hall name node) by left.
  rewrite uint64_add_l, uint64_add_r. f_equal.
  rewrite length_app. lia.
Qed.

Lemma GetTotalInodes_depth (n : nat) :
  (forall node, (Node_depth node < n)%nat ->
     Node_count node = uint64 (Z.of_nat (length (Node_inodes node))))
  /\ (forall d, (Dir_depth d < S n)%nat ->
        GetTotalInodes d = uint64 (Z.of_nat (length (Dir_inodes d)))).
Proof.
  induction n as [| n [IHnode IHdir]].
  - split; [intros; lia |]. intros [attrs children cfg] Hd. simpl in Hd. lia.
  - assert (Hnode : forall node, (Node_depth node < S n)%nat ->
              Node_count node = uint64 (Z.of_nat (length (Node_inodes node)))).
    { intros [d | f] Hd; simpl in *; [now apply IHdir | reflexivity]. }
    split; [exact Hnode |].
    intros [attrs children cfg] Hd.
    assert (Hall : forall name node, (name, node) ∈ map_to_list children ->
              Node_count node = uint64 (Z.of_nat (length (Node_inodes node)))).
    { intros name node Hin. apply elem_of_map_to_list in Hin. apply Hnode.
      pose proof (child_depth attrs children cfg name node Hin). lia. }
    pose proof (count_fold (map_to_list children) Hall) as Hfold.
    cbn [GetTotalInodes Dir_inodes length].
    rewrite map_fold_foldr, !map_to_list_fmap. exact Hfold.
Qed.

(** X19. [GetTotalInodes] counts the nodes of a tree: the directory
    itself, its files, and the nodes of its subdirectories, whatever the
    order in which the children are visited (the count is a [uint64]). *)
Theorem GetTotalInodes_counts_nodes (dir : Dir.t) :
  GetTotalInodes dir = uint64 (Z.of_nat (length (Dir_inodes dir))).
Proof.
  destruct (GetTotalInodes_depth (Dir_depth dir)) as [_ Hdir].
  apply Hdir. lia.
Qed.

(** ** serialization.go: decoding *)

Lemma Deserialize_Serialize_exact_depth (cfg : XBin25Config.t) (n : nat) :
  (forall node, (Node_depth node < n)%nat ->
     DeserializeNode cfg (SerializeNode node) = Some (Some (Node_with_config cfg node)))
  /\ (forall d, (Dir_depth d < S n)%nat ->
        DeserializeDir cfg (SerializeDir d) = Some (Dir_with_config cfg d)).
Proof.
  induction n as [| n [IHnode IHdir]].
  - split; [intros; lia |]. intros [attrs children c0] Hd. simpl in Hd. lia.
  - assert (Hnode : forall node, (Node_depth node < S n)%nat ->
              DeserializeNode cfg (SerializeNode node)
              = Some (Some (Node_with_config cfg node))).
    { intros [d | [attrs data]] Hd; simpl in *; [| reflexivity].
      now rewrite IHdir. }
    split; [exact Hnode |].
    intros [attrs children c0] Hd.
    assert (Hkey : forall k,
              (DeserializeNode cfg <$> (SerializeNode <$> children)) !! k
              = (fun node => Some (Some (Node_with_config cfg node))) <$> children !! k).
    { intros k. rewrite !lookup_fmap.
      destruct (children !! k) as [c |] eqn:Hc; [| reflexivity]. simpl.
      rewrite Hnode; [reflexivity |].
      pose proof (child_depth attrs children c0 k c Hc). lia. }
    cbn [SerializeDir DeserializeDir Dir_with_config].
    rewrite gather_Some.
    + do 2 f_equal. apply map_eq. intros k.
      rewrite lookup_omap, Hkey, lookup_fmap.
      now destruct (children !! k).
    + intros k r Hk. rewrite Hkey in Hk.
      destruct (children !! k); [| discriminate]. injection Hk as <-. eauto.
Qed.

(** X20. Decoding the mirror of a directory never panics and returns the
    directory itself, buffers with their capacity included, with one
    change: every directory of the tree carries the configuration handed
    to the decoder. *)
Theorem DeserializeDir_SerializeDir_exact (cfg : XBin25Config.t) (d : Dir.t) :
  DeserializeDir cfg (SerializeDir d) = Some (Dir_with_config cfg d).
Proof.
  destruct (Deserialize_Serialize_exact_depth cfg (Dir_depth d)) as [_ Hdir].
  apply Hdir. lia.
Qed.

Lemma gather_inv {A} (m : gmap string (option (option A))) (m' : gmap string A) :
  gather m = Some m' ->
  m' = omap (fun r => default None r) m
  /\ forall k r, m !! k = Some r -> is_Some r.
Proof.
  unfold gather.
  destruct (decide (map_Forall (fun _ r => is_Some r) m)) as [Hall |];
    [| discriminate].
  intros [= <-]. split; [reflexivity |]. intros k r Hk. exact (Hall k r Hk).
Qed.



(** X22. A mirror with a child of type ["dir"] whose directory pointer
    is nil, or of type ["file"] whose file pointer is nil, makes the
    decoder panic, wherever else the child's data may be. *)
Theorem DeserializeDir_nil_pointer (cfg : XBin25Config.t) (attributes : Attr.t)
    (children : gmap string SerializableNode) (name : string)
    (dir : option SerializableDir) (file : option SerializableFile.t) :
  children !! name = Some (mkSerializableNode "dir" None file)
  \/ children !! name = Some (mkSerializableNode "file" dir None) ->
  DeserializeDir cfg (mkSerializableDir attributes children) = None.
Proof.
  intros Hchild. simpl.
  destruct (gather _) as [children' |] eqn:Hgather; [| reflexivity].
  exfalso. apply gather_inv in Hgather. destruct Hgather as [_ Hall].
  destruct Hchild as [Hc | Hc].
  - specialize (Hall name (DeserializeNode cfg (mkSerializableNode "dir" None file))).
    rewrite lookup_fmap, Hc in Hall. destruct (Hall eq_refl) as [x Hx]. discriminate.
  - specialize (Hall name (DeserializeNode cfg (mkSerializableNode "file" dir None))).
    rewrite lookup_fmap, Hc in Hall. destruct (Hall eq_refl) as [x Hx]. discriminate.
Qed.

Lemma DeserializeDir_nil_pointer_witness :
  DeserializeDir (XBin25Config.mk "" "" "" "" "" 0 0)
    (mkSerializableDir (Attr.mk 1 0 0 0 0 2147484141 1000 1000)
       {[ "a" := mkSerializableNode "dir" None None ]}) = None.
Proof.
  apply (DeserializeDir_nil_pointer (XBin25Config.mk "" "" "" "" "" 0 0)
           (Attr.mk 1 0 0 0 0 2147484141 1000 1000)
           {[ "a" := mkSerializableNode "dir" None None ]} "a" None None).
  left. reflexivity.
Defined.

Lemma SerializeDir_config_depth (cfg : XBin25Config.t) (n : nat) :
  (forall node, (Node_depth node < n)%nat ->
     SerializeNode (Node_with_config cfg node) = SerializeNode node)
  /\ (forall d, (Dir_depth d < S n)%nat ->
        SerializeDir (Dir_with_config cfg d) = SerializeDir d).
Proof.
  induction n as [| n [IHnode IHdir]].
  - split; [intros; lia |]. intros [attrs children c0] Hd. simpl in Hd. lia.
  - assert (Hnode : forall node, (Node_depth node < S n)%nat ->
              SerializeNode (Node_with_config cfg node) = SerializeNode node).
    { intros [d | f] Hd; simpl in *; [| reflexivity]. now rewrite IHdir. }
    split; [exact Hnode |].
    intros [attrs children c0] Hd.
    cbn [Dir_with_config SerializeDir]. f_equal.
    apply map_eq. intros k. rewrite !lookup_fmap.
    destruct (children !! k) as [c |] eqn:Hc; [| reflexivity]. simpl.
    rewrite Hnode; [reflexivity |].
    pose proof (child_depth attrs children c0 k c Hc). lia.
Qed.

(** X23. The configuration is not part of a snapshot: two trees that
    differ in the configuration of their directories only have the same
    mirror. *)
Theorem SerializeDir_forgets_config (cfg : XBin25Config.t) (d : Dir.t) :
  SerializeDir (Dir_with_config cfg d) = SerializeDir d.
Proof.
  destruct (SerializeDir_config_depth cfg (Dir_depth d)) as [_ Hdir].
  apply Hdir. lia.
Qed.

(** ** serialization.go: SaveData and LoadData *)

Section PersistenceExtras.
Context `{External}.

(** X24. A [LoadData] that returns an error leaves the inode counter as
    it was; one that returns a tree has read an envelope of the expected
    version, has set the counter to the envelope's, and returns the
    decoded root. *)
Theorem LoadData_outcomes (cfg : XBin25Config.t) (diskFile : string)
    (inodeCounter : Z) (disk : Disk) :
  (forall e inodeCounter',
     LoadData cfg diskFile inodeCounter disk = (Err e, inodeCounter') ->
     inodeCounter' = inodeCounter)
  /\ (forall xfs inodeCounter',
        LoadData cfg diskFile inodeCounter disk = (Ok xfs, inodeCounter') ->
        exists encrypted msgpackBytes sxfs root,
          os_ReadFile disk diskFile = Some encrypted
          /\ xbin25_Unmarshall cfg encrypted = Some (AnyBytes msgpackBytes)
          /\ msgpack_Unmarshal msgpackBytes = Some sxfs
          /\ SerializableX25fs.Version sxfs = X25FS_VERSION
          /\ inodeCounter' = SerializableX25fs.InodeCounter sxfs
          /\ SerializableX25fs.RootDir sxfs = Some root
          /\ DeserializeDir cfg root = Some (X25fs.RootDir xfs)).
Proof.
  unfold LoadData, LoadInodeCounter. split.
  - intros e c'.
    destruct (os_ReadFile disk diskFile) as [encrypted |]; [| intros [= _ <-]; auto].
    destruct (xbin25_Unmarshall cfg encrypted) as [[bytes |] |];
      try (intros [= _ <-]; auto).
    destruct (msgpack_Unmarshal bytes) as [sxfs |]; [| intros [= _ <-]; auto].
    destruct (negb _); [intros [= _ <-]; auto |].
    destruct (SerializableX25fs.RootDir sxfs) as [root |]; [| discriminate].
    destruct (DeserializeDir cfg root); discriminate.
  - intros xfs c'.
    destruct (os_ReadFile disk diskFile) as [encrypted |] eqn:Hread; [| discriminate].
    destruct (xbin25_Unmarshall cfg encrypted) as [[bytes |] |] eqn:Hplain;
      try discriminate.
    destruct (msgpack_Unmarshal bytes) as [sxfs |] eqn:Hdec; [| discriminate].
    destruct (Z.eqb_spec (SerializableX25fs.Version sxfs) X25FS_VERSION) as [Hv | ];
      [| discriminate]. simpl.
    destruct (SerializableX25fs.RootDir sxfs) as [root |] eqn:Hroot; [| discriminate].
    destruct (DeserializeDir cfg root) as [d |] eqn:Hd; [| discriminate].
    intros [= <- <-]. exists encrypted, bytes, sxfs, root. auto 10.
Qed.

(** X25. A [SaveData] that returns an error leaves the disk as it was;
    one that returns nil has written, under the given path, the encrypted
    encoding of the envelope made of the expected version, the mirror of
    the root and the current inode counter. *)
Theorem SaveData_outcomes (xfs : X25fs.t) (cfg : XBin25Config.t) (diskFile : string)
    (inodeCounter : Z) (disk : Disk) :
  (forall e disk',
     SaveData xfs cfg diskFile inodeCounter disk = (Some e, disk') -> disk' = disk)
  /\ (forall disk',
        SaveData xfs cfg diskFile inodeCounter disk = (None, disk') ->
        exists buf encrypted,
          msgpack_Marshal
            (SerializableX25fs.mk X25FS_VERSION
               (Some (SerializeDir (X25fs.RootDir xfs))) inodeCounter) = Some buf
          /\ xbin25_Marshall cfg buf = Some encrypted
          /\ renameio_WriteFile disk diskFile encrypted = Some disk').
Proof.
  unfold SaveData, CurrentInodeCounter. split.
  - intros e disk'.
    destruct (msgpack_Marshal _) as [buf |]; [| intros [= _ <-]; auto].
    destruct (xbin25_Marshall cfg buf) as [encrypted |]; [| intros [= _ <-]; auto].
    destruct (renameio_WriteFile disk diskFile encrypted);
      [discriminate | intros [= _ <-]; auto].
  - intros disk'.
    destruct (msgpack_Marshal _) as [buf |] eqn:Hbuf; [| discriminate].
    destruct (xbin25_Marshall cfg buf) as [encrypted |] eqn:Henc; [| discriminate].
    destruct (renameio_WriteFile disk diskFile encrypted) eqn:Hw; [| discriminate].
    intros [= <-]. exists buf, encrypted. auto.
Qed.

End PersistenceExtras.

Lemma LoadData_outcomes_witness :
  exists encrypted msgpackBytes sxfs root,
    @os_ReadFile in_memory
      {[ "data.x25disk" :=
           SerializableX25fs.mk X25FS_VERSION
             (Some (mkSerializableDir (Attr.mk 1 0 0 0 0 2147484141 1000 1000) ∅)) 7 ]}
      "data.x25disk" = Some encrypted
    /\ @xbin25_Unmarshall in_memory (XBin25Config.mk "" "" "" "" "" 0 0) encrypted
       = Some (AnyBytes msgpackBytes)
    /\ @msgpack_Unmarshal in_memory msgpackBytes = Some sxfs
    /\ SerializableX25fs.Version sxfs = X25FS_VERSION
    /\ 7 = SerializableX25fs.InodeCounter sxfs
    /\ SerializableX25fs.RootDir sxfs = Some root
    /\ DeserializeDir (XBin25Config.mk "" "" "" "" "" 0 0) root
       = Some (X25fs.RootDir
                 (X25fs.mk (mkDir (Attr.mk 1 0 0 0 0 2147484141 1000 1000) ∅
                                  (XBin25Config.mk "" "" "" "" "" 0 0)))).
Proof.
  refine (proj2
    (@LoadData_outcomes in_memory (XBin25Config.mk "" "" "" "" "" 0 0) "data.x25disk" 2
       {[ "data.x25disk" :=
            SerializableX25fs.mk X25FS_VERSION
              (Some (mkSerializableDir (Attr.mk 1 0 0 0 0 2147484141 1000 1000) ∅)) 7 ]})
    (X25fs.mk (mkDir (Attr.mk 1 0 0 0 0 2147484141 1000 1000) ∅
                     (XBin25Config.mk "" "" "" "" "" 0 0)))
    7 _).
  reflexivity.
Defined.

Lemma SaveData_outcomes_witness :
  exists buf encrypted,
    @msgpack_Marshal in_memory
      (SerializableX25fs.mk X25FS_VERSION
         (Some (SerializeDir
            (mkDir (Attr.mk 1 0 0 0 0 2147484141 1000 1000) ∅
                   (XBin25Config.mk "" "" "" "" "" 0 0)))) 2) = Some buf
    /\ @xbin25_Marshall in_memory (XBin25Config.mk "" "" "" "" "" 0 0) buf = Some encrypted
    /\ @renameio_WriteFile in_memory ∅ "data.x25disk" encrypted
       = Some {[ "data.x25disk" :=
                   SerializableX25fs.mk X25FS_VERSION
                     (Some (SerializeDir
                        (mkDir (Attr.mk 1 0 0 0 0 2147484141 1000 1000) ∅
                               (XBin25Config.mk "" "" "" "" "" 0 0)))) 2 ]}.
Proof.
  refine (proj2
    (@SaveData_outcomes in_memory
       (X25fs.mk (mkDir (Attr.mk 1 0 0 0 0 2147484141 1000 1000) ∅
                        (XBin25Config.mk "" "" "" "" "" 0 0)))
       (XBin25Config.mk "" "" "" "" "" 0 0) "data.x25disk" 2 ∅) _ _).
  reflexivity.
Defined.

(** ** node.go: more on directories *)

(** X26. The bits of the owner come first: a caller whose uid is the
    owner's and whose directory lacks the owner's write bit is refused by
    [Rename] with EACCES, whatever the group's and the others' bits
    allow. *)
Theorem Rename_owner_bits_first (σ : gmap ptr Node) (directory newDir : ptr)
    (req : RenameRequest.t) (now : time_Time) (source target : Dir.t) :
  σ !! directory = Some (NDir source) ->
  σ !! newDir = Some (NDir target) ->
  Dir.Rename_bad_name (RenameRequest.NewName req) = false ->
  Dir.Rename_bad_name (RenameRequest.OldName req) = false ->
  Header.Uid (RenameRequest.Header req) = Attr.Uid (Dir.Attributes source) ->
  Z.land (Attr.Mode (Dir.Attributes source)) 128 = 0 ->
  Dir.Rename σ directory req newDir now = (Err EACCES, σ, []).
Proof.
  intros Hs Ht Hnew Hold Huid Hbit.
  unfold Dir.Rename, hasWritePermission, perm_owner_w.
  rewrite Hnew, Hold, Ht, Hs, Huid, Z.eqb_refl, Hbit. reflexivity.
Qed.

Lemma Rename_owner_bits_first_witness :
  Dir.Rename
    {[ 1%positive :=
         NDir (mkDir (Attr.mk 1 0 0 0 0 2147483711 1000 1000)
                     {[ "a" := NFile (File.mk (Attr.mk 3 0 0 0 0 420 1000 1000)
                                              slice.empty) ]}
                     (XBin25Config.mk "" "" "" "" "" 0 0)) ]}
    1%positive (RenameRequest.mk (Header.mk 1000 1000) "a" "b") 1%positive 77
  = (Err EACCES,
     {[ 1%positive :=
          NDir (mkDir (Attr.mk 1 0 0 0 0 2147483711 1000 1000)
                      {[ "a" := NFile (File.mk (Attr.mk 3 0 0 0 0 420 1000 1000)
                                               slice.empty) ]}
                      (XBin25Config.mk "" "" "" "" "" 0 0)) ]},
     []).
Proof.
  apply (Rename_owner_bits_first
           {[ 1%positive :=
                NDir (mkDir (Attr.mk 1 0 0 0 0 2147483711 1000 1000)
                            {[ "a" := NFile (File.mk (Attr.mk 3 0 0 0 0 420 1000 1000)
                                                     slice.empty) ]}
                            (XBin25Config.mk "" "" "" "" "" 0 0)) ]}
           1%positive 1%positive (RenameRequest.mk (Header.mk 1000 1000) "a" "b") 77
           (mkDir (Attr.mk 1 0 0 0 0 2147483711 1000 1000)
                  {[ "a" := NFile (File.mk (Attr.mk 3 0 0 0 0 420 1000 1000)
                                           slice.empty) ]}
                  (XBin25Config.mk "" "" "" "" "" 0 0))
           (mkDir (Attr.mk 1 0 0 0 0 2147483711 1000 1000)
                  {[ "a" := NFile (File.mk (Attr.mk 3 0 0 0 0 420 1000 1000)
                                           slice.empty) ]}
                  (XBin25Config.mk "" "" "" "" "" 0 0)));
    reflexivity.
Defined.

Lemma GetTotalInodes_length (dir : Dir.t) :
  GetTotalInodes dir = uint64 (Z.of_nat (length (Dir_inodes dir))).
Proof.
  destruct (GetTotalInodes_depth (Dir_depth dir)) as [_ Hdir].
  apply Hdir. lia.
Qed.

Lemma Node_count_length (node : Node) :
  Node_count node = uint64 (Z.of_nat (length (Node_inodes node))).
Proof.
  destruct (GetTotalInodes_depth (S (Node_depth node))) as [Hnode _].
  apply Hnode. lia.
Qed.

Lemma GetTotalInodes_insert (attributes attributes' : Attr.t)
    (children : gmap string Node) (cfg : XBin25Config.t) (name : string) (node : Node) :
  children !! name = None ->
  GetTotalInodes (mkDir attributes' (<[name := node]> children) cfg)
  = uint64 (GetTotalInodes (mkDir attributes children cfg) + Node_count node).
Proof.
  intros Hfree. rewrite !GetTotalInodes_length, Node_count_length.
  rewrite uint64_add_l, uint64_add_r. f_equal.
  rewrite (Permutation_length (Dir_inodes_insert attributes' children cfg name node Hfree)).
  rewrite length_app. simpl. lia.
Qed.

Section CountAfterUpdate.
Variable ValidateName : string -> option Errno.

(** X27. A successful [Create] or [Mkdir] raises the count of
    [GetTotalInodes] of the directory by one, and a successful [Remove]
    lowers it by the count of the node removed, a directory counting with
    all it holds: [Remove] drops a directory that is not empty together
    with its whole subtree. *)
Theorem GetTotalInodes_after_update (directory : Dir.t) (inodeCounter : Z) :
  (forall req now file directory' inodeCounter',
     Dir.Create ValidateName directory req now inodeCounter
       = (Ok file, directory', inodeCounter') ->
     GetTotalInodes directory' = uint64 (GetTotalInodes directory + 1))
  /\ (forall req now dir directory' inodeCounter',
        Dir.Mkdir ValidateName directory req now inodeCounter
          = (Ok dir, directory', inodeCounter') ->
        GetTotalInodes directory' = uint64 (GetTotalInodes directory + 1))
  /\ (forall req now1 now2 directory' child,
        Dir.Remove ValidateName directory req now1 now2 = (Ok tt, directory') ->
        Dir.Children directory !! RemoveRequest.Name req = Some child ->
        GetTotalInodes directory
        = uint64 (GetTotalInodes directory' + Node_count child)).
Proof.
  destruct directory as [attrs children cfg]. split; [| split].
  - intros req now file directory' c'. unfold Dir.Create, GetInodeAndIncrease.
    destruct (ValidateName _); [discriminate |].
    destruct (Dir.Children _ !! _) eqn:Hfree; [discriminate |].
    destruct (if _ =? _ then _ else _); [discriminate |].
    destruct (if _ =? _ then _ else _); [discriminate |].
    destruct (uint64 (inodeCounter + 1) =? 0); [discriminate |].
    intros [= <- <- <-]. simpl in Hfree.
    unfold Dir.touch, Dir.with_Children, Dir.with_Attributes.
    cbn [Dir.Children Dir.Config Dir.Attributes].
    now rewrite (GetTotalInodes_insert attrs) by assumption.
  - intros req now dir directory' c'. unfold Dir.Mkdir, GetInodeAndIncrease.
    destruct (ValidateName _); [discriminate |].
    destruct (Dir.Children _ !! _) eqn:Hfree; [discriminate |].
    destruct (negb _); [discriminate |].
    destruct (negb _); [discriminate |].
    destruct (uint64 (inodeCounter + 1) =? 0); [discriminate |].
    intros [= <- <- <-]. simpl in Hfree.
    unfold Dir.touch, Dir.with_Children, Dir.with_Attributes.
    cbn [Dir.Children Dir.Config Dir.Attributes].
    rewrite (GetTotalInodes_insert attrs) by assumption.
    cbn [Node_count GetTotalInodes]. now rewrite fmap_empty, map_fold_empty.
  - intros req now1 now2 directory' child. unfold Dir.Remove.
    destruct (ValidateName _); [discriminate |].
    destruct (Dir.Children _ !! _) eqn:Hchild; [| discriminate].
    destruct (negb _); [discriminate |].
    destruct (negb _); [discriminate |].
    intros [= <-] [= ->]. simpl in Hchild.
    unfold Dir.touch, Dir.with_Children, Dir.with_Attributes.
    cbn [Dir.Children Dir.Config Dir.Attributes].
    rewrite <- (GetTotalInodes_insert _ attrs (delete (RemoveRequest.Name req) children)
                  cfg (RemoveRequest.Name req) child)
      by apply lookup_delete_eq.
    now rewrite insert_delete_id.
Qed.

(** X28. For a valid name that is not taken and a caller who owns the
    directory, [Mkdir] returns an empty directory with the next inode,
    the directory flag and the permission bits asked for, the caller's
    uid and gid, the three times set to now and the configuration of its
    parent; the parent gains it under the name, has its modification and
    change times set to now, and keeps its other attributes. *)
Theorem Mkdir_result (directory : Dir.t) (req : MkdirRequest.t) (now : time_Time)
    (inodeCounter : Z) :
  ValidateName (MkdirRequest.Name req) = None ->
  Dir.Children directory !! MkdirRequest.Name req = None ->
  owner_matches (MkdirRequest.Header req) directory ->
  uint64 (inodeCounter + 1) <> 0 ->
  let attrs := Dir.Attributes directory in
  let dir :=
    mkDir (Attr.mk (uint64 (inodeCounter + 1)) 0 now now now
             (Z.lor ModeDir (Z.land (MkdirRequest.Mode req) 511))
             (Attr.Uid attrs) (Attr.Gid attrs))
          ∅ (Dir.Config directory) in
  Dir.Mkdir ValidateName directory req now inodeCounter
  = (Ok dir,
     mkDir (Attr.mk (Attr.Inode attrs) (Attr.Size attrs) (Attr.Atime attrs) now now
              (Attr.Mode attrs) (Attr.Uid attrs) (Attr.Gid attrs))
           (<[MkdirRequest.Name req := NDir dir]> (Dir.Children directory))
           (Dir.Config directory),
     uint64 (inodeCounter + 1)).
Proof.
  intros Hvalid Hfree Hown Hctr. cbv zeta.
  destruct (owner_check (MkdirRequest.Header req) directory) as [Hyes _].
  destruct (Hyes Hown) as [Hu Hg]. destruct Hown as [Huid Hgid].
  unfold Dir.Mkdir. rewrite Hvalid, Hfree, Hu, Hg, (counter_success _ Hctr).
  rewrite Huid, Hgid.
  assert (Hmask : Z.land (FileMode_Perm (MkdirRequest.Mode req)) 511
                  = Z.land (MkdirRequest.Mode req) 511).
  { unfold FileMode_Perm, ModePerm. rewrite <- Z.land_assoc. reflexivity. }
  rewrite Hmask. destruct directory as [[] children cfg]. reflexivity.
Qed.

End CountAfterUpdate.

Lemma GetTotalInodes_after_update_witness :
  GetTotalInodes
    (mkDir (Attr.mk 1 0 0 0 0 2147484141 1000 1000)
       {[ "a" := NDir (mkDir (Attr.mk 3 0 5 5 5 2147484141 1000 1000)
                     {[ "b.txt" := NFile (File.mk (Attr.mk 4 0 6 7 6 420 1000 1000)
                                            slice.empty) ]}
                     (XBin25Config.mk "" "" "" "" "" 0 0)) ]}
       (XBin25Config.mk "" "" "" "" "" 0 0))
  = uint64
      (GetTotalInodes
         (mkDir (Attr.mk 1 0 0 77 78 2147484141 1000 1000) ∅
                (XBin25Config.mk "" "" "" "" "" 0 0))
       + Node_count
           (NDir (mkDir (Attr.mk 3 0 5 5 5 2147484141 1000 1000)
                    {[ "b.txt" := NFile (File.mk (Attr.mk 4 0 6 7 6 420 1000 1000)
                                           slice.empty) ]}
                    (XBin25Config.mk "" "" "" "" "" 0 0)))).
Proof.
  refine (proj2 (proj2
    (GetTotalInodes_after_update ValidateName
       (mkDir (Attr.mk 1 0 0 0 0 2147484141 1000 1000)
          {[ "a" := NDir (mkDir (Attr.mk 3 0 5 5 5 2147484141 1000 1000)
                        {[ "b.txt" := NFile (File.mk (Attr.mk 4 0 6 7 6 420 1000 1000)
                                               slice.empty) ]}
                        (XBin25Config.mk "" "" "" "" "" 0 0)) ]}
          (XBin25Config.mk "" "" "" "" "" 0 0)) 4))
    (RemoveRequest.mk (Header.mk 1000 1000) "a") 77 78 _ _ _ _).
  - reflexivity.
  - reflexivity.
Defined.

Lemma Mkdir_result_witness :
  Dir.Mkdir ValidateName
    (mkDir (Attr.mk 1 0 0 0 0 2147484141 1000 1000) ∅ (XBin25Config.mk "c" "k" "" "" "" 0 0))
    (MkdirRequest.mk (Header.mk 1000 1000) "a" 13631981) 77 2
  = (Ok (mkDir (Attr.mk 3 0 77 77 77 2147484141 1000 1000) ∅
               (XBin25Config.mk "c" "k" "" "" "" 0 0)),
     mkDir (Attr.mk 1 0 0 77 77 2147484141 1000 1000)
           {[ "a" := NDir (mkDir (Attr.mk 3 0 77 77 77 2147484141 1000 1000) ∅
                                 (XBin25Config.mk "c" "k" "" "" "" 0 0)) ]}
           (XBin25Config.mk "c" "k" "" "" "" 0 0),
     3).
Proof.
  refine (Mkdir_result ValidateName
            (mkDir (Attr.mk 1 0 0 0 0 2147484141 1000 1000) ∅
                   (XBin25Config.mk "c" "k" "" "" "" 0 0))
            (MkdirRequest.mk (Header.mk 1000 1000) "a" 13631981) 77 2 _ _ _ _).
  - reflexivity.
  - reflexivity.
  - split; reflexivity.
  - vm_compute. congruence.
Defined.
